(** * Authentication and authorization core of [backend/server.py]

    A shallow embedding of the identity pipeline of the API server
    ([JWTHandler], [UserContext], [get_current_user]) and the proofs of
    its access-control properties.

    Python dictionaries are finite maps ([gmap]), Python lists are lists,
    [str] is [string], [int] is [Z].  Code that raises or logs lives in a
    small state-and-exception monad ([M]); the methods of [UserContext]
    are pure functions of the snapshot's value, and module [Objects]
    gives them once more over the mutable objects of the running
    program. *)

From Stdlib Require Import ZArith.
From stdpp Require Import base decidable countable option list strings gmap.

Open Scope string_scope.
Open Scope Z_scope.

(** ** Python values *)

(** The values that reach this core untyped: decoded JWT claims and rows
    of the hosted store are JSON documents. *)
#[warnings="-register-all"]
Inductive Value : Type :=
  | VNone
  | VBool (b : bool)
  | VInt (z : Z)
  | VStr (s : string)
  | VList (l : list Value)
  | VDict (d : gmap string Value).

(** [Dict[str, Any]]. *)
Abbreviation Dict := (gmap string Value).

(** Python truth value, the test behind [if x:] and [if not x:]. *)
Definition truthy (v : Value) : bool :=
  match v with
  | VNone => false
  | VBool b => b
  | VInt z => negb (z =? 0)
  | VStr s => negb (String.eqb s "")
  | VList l => match l with [] => false | _ => true end
  | VDict d => negb (Nat.eqb (size d) 0)
  end.

(** [d.get(key)]: [None] when the key is absent. *)
Definition dict_get (d : Dict) (key : string) : Value :=
  default VNone (d !! key).

(** [d.pop(key, dflt)]: the value and the dictionary left after the
    removal (the source mutates [d] in place). *)
Definition dict_pop (d : Dict) (key : string) (dflt : Value) : Value * Dict :=
  (default dflt (d !! key), delete key d).

(** ** Models *)

Definition datetime := Z.

Inductive UserRole : Type :=
  | SAAS_SUPER_ADMIN
  | SAAS_ADMIN
  | SAAS_ACCOUNTANT
  | ORGANIZATION_OWNER
  | ORGANIZATION_ADMIN
  | ORGANIZATION_USER.

(** The string value of each member of the enumeration. *)
Definition UserRole_value (r : UserRole) : string :=
  match r with
  | SAAS_SUPER_ADMIN => "saas_super_admin"
  | SAAS_ADMIN => "saas_admin"
  | SAAS_ACCOUNTANT => "saas_accountant"
  | ORGANIZATION_OWNER => "organization_owner"
  | ORGANIZATION_ADMIN => "organization_admin"
  | ORGANIZATION_USER => "organization_user"
  end.

#[global] Instance UserRole_eq_dec : EqDecision UserRole.
Proof. solve_decision. Defined.

Definition UserRole_index (r : UserRole) : nat :=
  match r with
  | SAAS_SUPER_ADMIN => 0
  | SAAS_ADMIN => 1
  | SAAS_ACCOUNTANT => 2
  | ORGANIZATION_OWNER => 3
  | ORGANIZATION_ADMIN => 4
  | ORGANIZATION_USER => 5
  end%nat.

Definition UserRole_of_index (n : nat) : option UserRole :=
  match n with
  | 0 => Some SAAS_SUPER_ADMIN
  | 1 => Some SAAS_ADMIN
  | 2 => Some SAAS_ACCOUNTANT
  | 3 => Some ORGANIZATION_OWNER
  | 4 => Some ORGANIZATION_ADMIN
  | 5 => Some ORGANIZATION_USER
  | _ => None
  end%nat.

#[global] Instance UserRole_countable : Countable UserRole.
Proof.
  apply (inj_countable UserRole_index UserRole_of_index).
  intros []; reflexivity.
Defined.

Inductive SubscriptionTier : Type :=
  | FREE
  | STARTER
  | PROFESSIONAL
  | ENTERPRISE.

Record UserProfile : Type := {
  profile_id : string;
  profile_email : string;
  first_name : option string;
  last_name : option string;
  avatar_url : option string;
  phone : option string;
  timezone : string;
  profile_created_at : datetime;
  profile_updated_at : datetime;
  last_login : option datetime;
  profile_is_active : bool
}.

Record Organization : Type := {
  org_id : string;
  org_name : string;
  domain : option string;
  org_created_at : datetime;
  org_updated_at : datetime;
  org_is_active : bool;
  subscription_tier : SubscriptionTier;
  max_users : Z;
  settings : Dict
}.

Record OrganizationMembership : Type := {
  membership_id : string;
  user_id : string;
  organization_id : string;
  role : UserRole;
  invited_by : option string;
  invited_at : datetime;
  accepted_at : option datetime;
  created_at : datetime;
  updated_at : datetime;
  is_active : bool;
  organization : option Organization
}.

Record UserContext : Type := {
  id : string;
  email : string;
  profile : UserProfile;
  memberships : list OrganizationMembership;
  raw_payload : Dict
}.

(** ** The methods of [UserContext] *)

(** The test of the loop in [get_membership_for_organization]:
    [membership.organization_id == org_id and membership.is_active]. *)
Definition membership_matches (org : string) (m : OrganizationMembership) : bool :=
  String.eqb (organization_id m) org && is_active m.

(** The [for] loop with its early [return]. *)
Fixpoint first_match (org : string) (ms : list OrganizationMembership)
  : option OrganizationMembership :=
  match ms with
  | [] => None
  | membership :: rest =>
      if membership_matches org membership then Some membership
      else first_match org rest
  end.

Definition get_membership_for_organization (self : UserContext) (org : string)
  : option OrganizationMembership :=
  first_match org (memberships self).

(** The dictionary literal of [has_minimum_role_in_organization]. *)
Definition role_hierarchy : gmap UserRole Z :=
  <[ORGANIZATION_USER := 1]>
  (<[ORGANIZATION_ADMIN := 2]>
  (<[ORGANIZATION_OWNER := 3]>
  (<[SAAS_ACCOUNTANT := 4]>
  (<[SAAS_ADMIN := 5]>
  (<[SAAS_SUPER_ADMIN := 6]> ∅))))).

(** [role_hierarchy.get(role, 0)]. *)
Definition role_level (r : UserRole) : Z := default 0 (role_hierarchy !! r).

Definition has_minimum_role_in_organization
    (self : UserContext) (org : string) (min_role : UserRole) : bool :=
  match get_membership_for_organization self org with
  | None => false
  | Some membership =>
      let user_level := role_level (role membership) in
      let min_level := role_level min_role in
      user_level >=? min_level
  end.

(** The set literal of [has_saas_role]. *)
Definition saas_roles : gset UserRole :=
  {[SAAS_ACCOUNTANT; SAAS_ADMIN; SAAS_SUPER_ADMIN]}.

(** [any(membership.role in saas_roles for membership in self.memberships)]. *)
Definition has_saas_role (self : UserContext) : bool :=
  existsb (fun membership => bool_decide (role membership ∈ saas_roles))
          (memberships self).

(** ** Exceptions and effects *)

(** The exceptions this code raises or catches.  The three PyJWT classes
    are nested in the library (expired < invalid token < PyJWT error);
    each constructor stands for the instances of its class that belong
    to no class listed before it, which is how the [except] clauses of
    [decode_token], tried in order, tell them apart.  [Exception] is any
    other exception, with its [str(e)]. *)
Inductive exn : Type :=
  | HTTPException (status_code : Z) (detail : string)
                  (headers : option (gmap string string))
  | ExpiredSignatureError (msg : string)
  | InvalidTokenError (msg : string)
  | PyJWTError (msg : string)
  | Exception (msg : string).

Definition HTTP_401_UNAUTHORIZED : Z := 401.

(** [str(e)] for the exceptions that are not HTTP errors. *)
Definition exn_str (e : exn) : string :=
  match e with
  | HTTPException _ detail _ => detail
  | ExpiredSignatureError msg
  | InvalidTokenError msg
  | PyJWTError msg
  | Exception msg => msg
  end.

(** A read issued to the store, by table and filter value. *)
Inductive StoreRead : Type :=
  | SelectUserProfile (id : Value)
  | SelectMemberships (user_id : Value).

(** What a request leaves behind outside its own result: the lines
    written by [logging.error] and the reads sent to the store. *)
Record World : Type := {
  log : list string;
  reads : list StoreRead
}.

Inductive result (A : Type) : Type :=
  | Returned (a : A)
  | Raised (e : exn).
Arguments Returned {A} a.
Arguments Raised {A} e.

Definition M (A : Type) : Type := World -> World * result A.

#[global] Instance M_ret : MRet M := fun A a w => (w, Returned a).

#[global] Instance M_bind : MBind M := fun A B f m w =>
  match m w with
  | (w', Returned a) => f a w'
  | (w', Raised e) => (w', Raised e)
  end.

Definition raise {A : Type} (e : exn) : M A := fun w => (w, Raised e).

(** [try: body / except ...: handler]; a handler re-raises what its
    clauses do not catch. *)
Definition try_except {A : Type} (body : M A) (handler : exn -> M A) : M A :=
  fun w =>
    match body w with
    | (w', Returned a) => (w', Returned a)
    | (w', Raised e) => handler e w'
    end.

Definition logging_error (line : string) : M unit :=
  fun w => ({| log := log w ++ [line]; reads := reads w |}, Returned tt).

(** The outcome of library code: the text of the exception it raised, or
    its value. *)
Definition lift {A : Type} (r : string + A) : M A :=
  match r with
  | inl msg => raise (Exception msg)
  | inr a => mret a
  end.

(** ** Collaborators *)

(** The code outside this repository that the pipeline calls: PyJWT, the
    hosted store and the model validation of pydantic.  A validator
    yields the text of its error or the model. *)
Record Services : Type := {
  (** [jwt.decode(token, secret, algorithms=["HS256"], audience="authenticated")] *)
  jwt_decode : string -> exn + Dict;
  (** [.table("user_profiles").select("*").eq("id", user_id).single().execute().data] *)
  select_user_profile : Value -> string + option Dict;
  (** [.table("organization_memberships").select(...).eq("user_id", user_id)
      .eq("is_active", True).execute().data] *)
  select_memberships : Value -> string + list Dict;
  (** [UserProfile] built from the keywords of [data] *)
  UserProfile_new : Dict -> string + UserProfile;
  (** [OrganizationMembership] built from the keywords of [item] *)
  OrganizationMembership_new : Dict -> string + OrganizationMembership;
  (** [Organization] built from the keywords of [org_data] *)
  Organization_new : Value -> string + Organization;
  (** the fields [id: str] and [email: EmailStr] of [UserContext(...)] *)
  UserContext_fields : Value -> Value -> string + (string * string)
}.

Record HTTPAuthorizationCredentials : Type := {
  scheme : string;
  credentials : string
}.

Definition www_authenticate : option (gmap string string) :=
  Some {["WWW-Authenticate" := "Bearer"]}.

(** [membership.organization = org]. *)
Definition set_organization (m : OrganizationMembership) (org : Organization)
  : OrganizationMembership :=
  {| membership_id := membership_id m;
     user_id := user_id m;
     organization_id := organization_id m;
     role := role m;
     invited_by := invited_by m;
     invited_at := invited_at m;
     accepted_at := accepted_at m;
     created_at := created_at m;
     updated_at := updated_at m;
     is_active := is_active m;
     organization := Some org |}.

Section Pipeline.
Context (ext : Services).

(** *** [JWTHandler] *)

Definition decode_token (token : string) : M Dict :=
  match jwt_decode ext token with
  | inr payload => mret payload
  | inl (ExpiredSignatureError _) =>
      raise (HTTPException HTTP_401_UNAUTHORIZED "Token has expired"
                           www_authenticate)
  | inl (InvalidTokenError _) =>
      raise (HTTPException HTTP_401_UNAUTHORIZED "Invalid authentication token"
                           www_authenticate)
  | inl (PyJWTError _) =>
      raise (HTTPException HTTP_401_UNAUTHORIZED "Could not validate credentials"
                           www_authenticate)
  | inl e => raise e
  end.

Definition get_user_id (payload : Dict) : M Value :=
  let user_id := dict_get payload "sub" in
  if negb (truthy user_id) then
    raise (HTTPException HTTP_401_UNAUTHORIZED "Token does not contain user ID" None)
  else mret user_id.

Definition get_user_email (payload : Dict) : M Value :=
  let email := dict_get payload "email" in
  if negb (truthy email) then
    raise (HTTPException HTTP_401_UNAUTHORIZED "Token does not contain user email" None)
  else mret email.

(** *** The store *)

Definition execute_user_profile (user_id : Value) : M (option Dict) :=
  fun w =>
    lift (select_user_profile ext user_id)
         {| log := log w; reads := reads w ++ [SelectUserProfile user_id] |}.

Definition execute_memberships (user_id : Value) : M (list Dict) :=
  fun w =>
    lift (select_memberships ext user_id)
         {| log := log w; reads := reads w ++ [SelectMemberships user_id] |}.

(** *** [get_current_user] *)

(** The body of the loop over [memberships_result.data]. *)
Definition load_membership (item : Dict) : M OrganizationMembership :=
  let '(org_data, item) := dict_pop item "organization" (VDict ∅) in
  membership ← lift (OrganizationMembership_new ext item);
  if truthy org_data then
    org ← lift (Organization_new ext org_data);
    mret (set_organization membership org)
  else mret membership.

(** The loop: [memberships] is the list built so far. *)
Fixpoint load_memberships (memberships : list OrganizationMembership)
    (data : list Dict) : M (list OrganizationMembership) :=
  match data with
  | [] => mret memberships
  | item :: data =>
      membership ← load_membership item;
      load_memberships (memberships ++ [membership]) data
  end.

Definition new_UserContext (user_id email : Value) (profile : UserProfile)
    (memberships : list OrganizationMembership) (payload : Dict)
  : M UserContext :=
  '(id, email) ← lift (UserContext_fields ext user_id email);
  mret {| id := id; email := email; profile := profile;
          memberships := memberships; raw_payload := payload |}.

(** The body of the [try] block. *)
Definition get_current_user_try (token : string) : M UserContext :=
  payload ← decode_token token;
  user_id ← get_user_id payload;
  email ← get_user_email payload;
  data ← execute_user_profile user_id;
  match data with
  | None => raise (HTTPException HTTP_401_UNAUTHORIZED "User profile not found" None)
  | Some row =>
      if negb (truthy (VDict row)) then
        raise (HTTPException HTTP_401_UNAUTHORIZED "User profile not found" None)
      else
        profile ← lift (UserProfile_new ext row);
        rows ← execute_memberships user_id;
        memberships ←
          (if truthy (VList (VDict <$> rows)) then load_memberships [] rows
           else mret []);
        new_UserContext user_id email profile memberships payload
  end.

Definition get_current_user (creds : option HTTPAuthorizationCredentials)
  : M UserContext :=
  match creds with
  | None =>
      raise (HTTPException HTTP_401_UNAUTHORIZED "Bearer authentication required"
                           www_authenticate)
  | Some c =>
      try_except (get_current_user_try (credentials c))
        (fun e =>
           match e with
           | HTTPException _ _ _ => raise e
           | _ =>
               _ ← logging_error ("Error in get_current_user: " +:+ exn_str e);
               raise (HTTPException HTTP_401_UNAUTHORIZED "Authentication failed" None)
           end)
  end.

End Pipeline.

(** ** The queries of the authorization evaluator *)

(** A call of one of the three methods, and what it answers. *)
Inductive EvaluatorQuery : Type :=
  | AskMembership (org : string)
  | AskMinimumRole (org : string) (min_role : UserRole)
  | AskSaasRole.

Inductive EvaluatorAnswer : Type :=
  | AnsMembership (m : option OrganizationMembership)
  | AnsBool (b : bool).

Definition evaluate (self : UserContext) (q : EvaluatorQuery) : EvaluatorAnswer :=
  match q with
  | AskMembership org => AnsMembership (get_membership_for_organization self org)
  | AskMinimumRole org min_role =>
      AnsBool (has_minimum_role_in_organization self org min_role)
  | AskSaasRole => AnsBool (has_saas_role self)
  end.

(** ** The snapshot as Python objects

    The methods above take the snapshot as a value.  In the running
    program the snapshot is a graph of mutable objects: the context
    holds a list of references to membership objects, a method reads
    attributes through these references, and
    [get_membership_for_organization] returns one of them.  This module
    writes the three methods once more at that level, over a memory that
    a method could change, to tell what they do to it. *)
Module Objects.

Definition addr := positive.

(** The objects of a snapshot, by their attributes. *)
Inductive Obj : Type :=
  | Membership (attrs : OrganizationMembership)
  | Context (id email : string) (profile : UserProfile)
            (memberships : list addr) (raw_payload : Dict).

(** All a method can reach: the objects, and the log and the store reads
    of the request. *)
Record Memory : Type := {
  objects : gmap addr Obj;
  outside : World
}.

Definition Py (A : Type) : Type := Memory -> Memory * result A.

#[global] Instance Py_ret : MRet Py := fun A a mem => (mem, Returned a).

#[global] Instance Py_bind : MBind Py := fun A B f m mem =>
  match m mem with
  | (mem', Returned a) => f a mem'
  | (mem', Raised e) => (mem', Raised e)
  end.

(** [membership.attribute], for a reference to a membership. *)
Definition getattr {A : Type} (attribute : OrganizationMembership -> A)
    (membership : addr) : Py A :=
  fun mem =>
    match objects mem !! membership with
    | Some (Membership attrs) => (mem, Returned (attribute attrs))
    | _ => (mem, Raised (Exception "AttributeError"))
    end.

(** [self.memberships]: the references the list holds. *)
Definition getattr_memberships (self : addr) : Py (list addr) :=
  fun mem =>
    match objects mem !! self with
    | Some (Context _ _ _ memberships _) => (mem, Returned memberships)
    | _ => (mem, Raised (Exception "AttributeError"))
    end.

(** The [for] loop of [get_membership_for_organization]; [and] reads
    [is_active] only when the organization matches. *)
Fixpoint first_match (org_id : string) (memberships : list addr)
  : Py (option addr) :=
  match memberships with
  | [] => mret None
  | membership :: rest =>
      organization ← getattr organization_id membership;
      if String.eqb organization org_id then
        active ← getattr is_active membership;
        if (active : bool) then mret (Some membership)
        else first_match org_id rest
      else first_match org_id rest
  end.

Definition get_membership_for_organization (self : addr) (org_id : string)
  : Py (option addr) :=
  memberships ← getattr_memberships self;
  first_match org_id memberships.

(** [role_hierarchy] is built anew by each call and never leaves it, so
    it is the value [role_hierarchy] here too. *)
Definition has_minimum_role_in_organization (self : addr) (org_id : string)
    (min_role : UserRole) : Py bool :=
  membership ← get_membership_for_organization self org_id;
  match membership with
  | None => mret false
  | Some membership =>
      user_role ← getattr role membership;
      let user_level := role_level user_role in
      let min_level := role_level min_role in
      mret (user_level >=? min_level)
  end.

(** [any(...)] over the generator: it stops at the first platform role. *)
Fixpoint any_saas_role (memberships : list addr) : Py bool :=
  match memberships with
  | [] => mret false
  | membership :: rest =>
      user_role ← getattr role membership;
      if bool_decide (user_role ∈ saas_roles) then mret true
      else any_saas_role rest
  end.

Definition has_saas_role (self : addr) : Py bool :=
  memberships ← getattr_memberships self;
  any_saas_role memberships.

(** What a call answers: a reference or nothing, or a truth value. *)
Inductive Answer : Type :=
  | Ref (membership : option addr)
  | Bool (b : bool).

(** A call of one of the three methods on the context at [self]. *)
Definition ask (self : addr) (q : EvaluatorQuery) : Py Answer :=
  match q with
  | AskMembership org =>
      membership ← get_membership_for_organization self org;
      mret (Ref membership)
  | AskMinimumRole org min_role =>
      b ← has_minimum_role_in_organization self org min_role;
      mret (Bool b)
  | AskSaasRole =>
      b ← has_saas_role self;
      mret (Bool b)
  end.

(** *** The snapshot that a memory holds *)

Definition membership_at (h : gmap addr Obj) (a : addr)
  : option OrganizationMembership :=
  match h !! a with
  | Some (Membership attrs) => Some attrs
  | _ => None
  end.

(** The value of the context at [self]: its own attributes and, for the
    references of its list, the attributes of the memberships. *)
Definition snapshot_at (h : gmap addr Obj) (self : addr) : option UserContext :=
  match h !! self with
  | Some (Context i e p items payload) =>
      ms ← mapM (membership_at h) items;
      Some {| id := i; email := e; profile := p; memberships := ms;
              raw_payload := payload |}
  | _ => None
  end.

(** An answer of a call on the objects and an answer on the snapshot
    say the same. *)
Definition denotes (h : gmap addr Obj) (x : Answer) (y : EvaluatorAnswer) : Prop :=
  match x, y with
  | Ref None, AnsMembership None => True
  | Ref (Some a), AnsMembership (Some m) => membership_at h a = Some m
  | Bool b, AnsBool b' => b = b'
  | _, _ => False
  end.

End Objects.

(** ** The order of the roles, as the specification gives it *)

(** organization_user < organization_admin < organization_owner <
    saas_accountant < saas_admin < saas_super_admin. *)
Definition role_order : list UserRole :=
  [ORGANIZATION_USER; ORGANIZATION_ADMIN; ORGANIZATION_OWNER;
   SAAS_ACCOUNTANT; SAAS_ADMIN; SAAS_SUPER_ADMIN].

(** The position of a role in [role_order]. *)
Definition rank (r : UserRole) : nat :=
  from_option fst 0%nat (list_find (fun x => x = r) role_order).

(** A membership that an organization lookup may return. *)
Definition active_in (org : string) (m : OrganizationMembership) : Prop :=
  organization_id m = org /\ is_active m = true.

(** A platform-wide role. *)
Definition platform_role (r : UserRole) : Prop :=
  r = SAAS_ACCOUNTANT \/ r = SAAS_ADMIN \/ r = SAAS_SUPER_ADMIN.

(** An organization-level role. *)
Definition organization_role (r : UserRole) : Prop :=
  r = ORGANIZATION_USER \/ r = ORGANIZATION_ADMIN \/ r = ORGANIZATION_OWNER.



(** ** Sample data

    One user, two organizations and a store that knows them, for the
    scenarios of the specification and for instances of the theorems. *)
Module Sample.

Definition u1_profile : UserProfile :=
  {| profile_id := "u1"; profile_email := "u1@x.com";
     first_name := None; last_name := None; avatar_url := None;
     phone := None; timezone := "UTC";
     profile_created_at := 0; profile_updated_at := 0;
     last_login := None; profile_is_active := true |}.

Definition membership (mid org : string) (r : UserRole) (active : bool)
  : OrganizationMembership :=
  {| membership_id := mid; user_id := "u1"; organization_id := org;
     role := r; invited_by := None; invited_at := 0; accepted_at := None;
     created_at := 0; updated_at := 0; is_active := active;
     organization := None |}.

Definition snapshot (ms : list OrganizationMembership) : UserContext :=
  {| id := "u1"; email := "u1@x.com"; profile := u1_profile;
     memberships := ms; raw_payload := ∅ |}.

Definition owner_o1 := membership "m1" "o1" ORGANIZATION_OWNER true.
Definition admin_o9 := membership "m2" "o9" SAAS_ADMIN true.
Definition user_o1 := membership "m3" "o1" ORGANIZATION_USER true.
Definition retired_o9 := membership "m4" "o9" SAAS_ADMIN false.

(** Two active memberships for "o1", the lower role first. *)
Definition duplicates : UserContext := snapshot [user_o1; owner_o1].
Definition mixed : UserContext := snapshot [retired_o9; owner_o1; user_o1].
Definition owner_and_retired : UserContext := snapshot [owner_o1; retired_o9].

(** *** A store and validators that compute *)

Definition field_str (d : Dict) (key : string) : string + string :=
  match d !! key with
  | Some (VStr s) => inr s
  | _ => inl (key +:+ ": Input should be a valid string")
  end.

Definition parse_role (s : string) : string + UserRole :=
  match list_find (fun r => UserRole_value r = s) role_order with
  | Some (_, r) => inr r
  | None => inl "role: Input should be a member of UserRole"
  end.

Definition new_membership (item : Dict) : string + OrganizationMembership :=
  match field_str item "id", field_str item "organization_id",
        field_str item "role" with
  | inr mid, inr org, inr r =>
      match parse_role r with
      | inr r => inr (membership mid org r true)
      | inl msg => inl msg
      end
  | inl msg, _, _ | _, inl msg, _ | _, _, inl msg => inl msg
  end.

Definition new_organization (v : Value) : string + Organization :=
  match v with
  | VDict d =>
      match field_str d "id", field_str d "name" with
      | inr i, inr n =>
          inr {| org_id := i; org_name := n; domain := None;
                 org_created_at := 0; org_updated_at := 0;
                 org_is_active := true; subscription_tier := FREE;
                 max_users := 5; settings := ∅ |}
      | inl msg, _ | _, inl msg => inl msg
      end
  | _ => inl "argument after ** must be a mapping"
  end.

Definition new_profile (d : Dict) : string + UserProfile :=
  match field_str d "id", field_str d "email" with
  | inr "u1", inr "u1@x.com" => inr u1_profile
  | _, _ => inl "validation error for UserProfile"
  end.

Definition context_fields (uid em : Value) : string + (string * string) :=
  match uid, em with
  | VStr u, VStr e => inr (u, e)
  | _, _ => inl "validation error for UserContext"
  end.

Definition claims (sub : Value) : Dict :=
  <["sub" := sub]> (<["email" := VStr "u1@x.com"]>
    (<["aud" := VStr "authenticated"]> ∅)).

Definition decode (token : string) : exn + Dict :=
  if String.eqb token "good" then inr (claims (VStr "u1"))
  else if String.eqb token "stranger" then inr (claims (VStr "u7"))
  else if String.eqb token "nosub" then inr (delete "sub" (claims VNone))
  else if String.eqb token "expired" then
    inl (ExpiredSignatureError "Signature has expired")
  else if String.eqb token "forged" then
    inl (InvalidTokenError "Signature verification failed")
  else inl (InvalidTokenError "Not enough segments").

Definition profile_row : Dict :=
  <["id" := VStr "u1"]> (<["email" := VStr "u1@x.com"]> ∅).

Definition membership_row (mid org r : string) : Dict :=
  <["id" := VStr mid]> (<["organization_id" := VStr org]>
    (<["role" := VStr r]> (<["organization" := VNone]> ∅))).

(** [rows] is what the membership table holds for "u1". *)
Definition services (rows : list Dict) : Services :=
  {| jwt_decode := decode;
     select_user_profile := fun uid =>
       match uid with
       | VStr "u1" => inr (Some profile_row)
       | _ => inr None
       end;
     select_memberships := fun uid =>
       match uid with
       | VStr "u1" => inr rows
       | _ => inr []
       end;
     UserProfile_new := new_profile;
     OrganizationMembership_new := new_membership;
     Organization_new := new_organization;
     UserContext_fields := context_fields |}.

Definition two_rows : list Dict :=
  [membership_row "m1" "o1" "organization_owner";
   membership_row "m2" "o9" "saas_admin"].

Definition creds (token : string) : HTTPAuthorizationCredentials :=
  {| scheme := "Bearer"; credentials := token |}.

Definition bearer (token : string) : option HTTPAuthorizationCredentials :=
  Some (creds token).

Definition quiet : World := {| log := []; reads := [] |}.

End Sample.

(** A memory that holds a snapshot of the sample user: the context at 1,
    its memberships at 2, 3 and 4. *)
Module SampleObjects.

Definition heap : gmap Objects.addr Objects.Obj :=
  <[1%positive := Objects.Context "u1" "u1@x.com" Sample.u1_profile
                    [2%positive; 3%positive; 4%positive] ∅]>
  (<[2%positive := Objects.Membership Sample.retired_o9]>
  (<[3%positive := Objects.Membership Sample.user_o1]>
  (<[4%positive := Objects.Membership Sample.owner_o1]> ∅))).

Definition memory : Objects.Memory :=
  {| Objects.objects := heap; Objects.outside := Sample.quiet |}.

End SampleObjects.

(** ** Failing tokens *)

(** A failure of PyJWT itself: the token expired, is invalid in another
    way (bad signature, malformed, wrong audience), or the library
    reports any other error of its own. *)
Definition jwt_failure (e : exn) : Prop :=
  match e with
  | ExpiredSignatureError _ | InvalidTokenError _ | PyJWTError _ => True
  | HTTPException _ _ _ | Exception _ => False
  end.

(** [m] raises nothing but exceptions that satisfy [P]. *)
Definition raises_only {A : Type} (P : exn -> Prop) (m : M A) : Prop :=
  forall w w' e, m w = (w', Raised e) -> P e.

(** An exception that is no HTTP error, or an HTTP error with status 401. *)
Definition unauthorized_if_http (e : exn) : Prop :=
  match e with
  | HTTPException status _ _ => status = 401
  | _ => True
  end.

(** The world after one more store read. *)
Definition after_read (w : World) (qs : list StoreRead) : World :=
  {| log := log w; reads := reads w ++ qs |}.

(** The world after one more line of log. *)
Definition after_log (w : World) (line : string) : World :=
  {| log := log w ++ [line]; reads := reads w |}.

(** * The rest of the server *)

(** ** [UserProfile.full_name] *)

(** The truth value of an [Optional[str]]. *)
Definition str_truthy (s : option string) : bool :=
  match s with
  | Some s => negb (String.eqb s "")
  | None => false
  end.

(** [a or b] for an optional string and a string. *)
Definition str_or (a : option string) (b : string) : string :=
  if str_truthy a then default "" a else b.

Definition full_name (self : UserProfile) : string :=
  if str_truthy (first_name self) && str_truthy (last_name self) then
    default "" (first_name self) +:+ " " +:+ default "" (last_name self)
  else
    str_or (first_name self) (str_or (last_name self) (profile_email self)).

(** A name that [full_name] passes over: absent or empty. *)
Definition name_missing (s : option string) : Prop :=
  s = None \/ s = Some "".

(** ** Request and response models *)

Record LoginRequest : Type := {
  login_email : string;
  login_password : string
}.

Record RegisterRequest : Type := {
  register_email : string;
  register_password : string;
  register_first_name : option string;
  register_last_name : option string;
  register_phone : option string
}.

Record OrganizationCreate : Type := {
  create_name : string;
  create_domain : option string
}.

Record InviteUserRequest : Type := {
  invite_email : string;
  invite_role : UserRole;
  invite_first_name : option string;
  invite_last_name : option string
}.

Record DashboardStats : Type := {
  total_organizations : Z;
  total_users : Z;
  active_campaigns : Z;
  total_messages_sent : Z
}.

(** An [Optional[str]] as a value of a row. *)
Definition optional_str (s : option string) : Value :=
  match s with
  | Some s => VStr s
  | None => VNone
  end.

(** ** The client of the hosted backend *)

(** A call the route handlers send to the backend: the table queries
    (each named after the one query expression of the source it stands
    for) and the two calls of the auth service. *)
Inductive StoreCall : Type :=
  (** [table("organizations").select("count", count="exact")] *)
  | CountOrganizations
  (** [table("user_profiles").select("count", count="exact")] *)
  | CountUserProfiles
  (** [table("organizations").select("*")] *)
  | SelectOrganizations
  (** [table("organization_memberships")] with the profile of each user,
      [.eq("organization_id", org_id).eq("is_active", True)] *)
  | SelectOrganizationMembers (org_id : string)
  (** [table("user_profiles").select("id").eq("email", email)] *)
  | SelectProfileByEmail (email : string)
  (** [table("organization_memberships").select("id").eq("user_id", user_id)
      .eq("organization_id", org_id)] *)
  | SelectMembership (user_id : Value) (org_id : string)
  (** [table("organizations").insert(row)] *)
  | InsertOrganization (row : Dict)
  (** [table("organization_memberships").insert(row)] *)
  | InsertMembership (row : Dict)
  (** [auth.sign_in_with_password(credentials)] *)
  | SignInWithPassword (credentials : Dict)
  (** [auth.sign_up(credentials)] *)
  | SignUp (credentials : Dict).

(** The result of [.execute()]. *)
Record APIResponse : Type := {
  response_data : list Dict;
  response_count : option Z
}.

(** The user and the session in the answer of the auth service. *)
Record AuthUser : Type := {
  auth_user_id : string;
  auth_user_fields : Dict
}.

Record AuthSession : Type := {
  access_token : string;
  expires_in : Z
}.

Record AuthResponse : Type := {
  auth_user : option AuthUser;
  auth_session : option AuthSession
}.

(** What the handlers call outside this repository.  A call yields the
    text of the exception it raised or its result; within one request no
    handler sends the same call twice, so the answer is taken as a
    function of the call. *)
Record Backend : Type := {
  (** [.execute()] of a table query *)
  execute : StoreCall -> string + APIResponse;
  sign_in_with_password : Dict -> string + AuthResponse;
  sign_up : Dict -> string + AuthResponse;
  (** [datetime.utcnow().isoformat()], by the number of earlier readings *)
  utcnow_isoformat : nat -> string;
  (** [str(e)] of an [HTTPException] with this status and detail *)
  HTTPException_str : Z -> string -> string;
  (** [UserProfile] built from the keywords of an embedded profile *)
  UserProfile_of : Value -> string + UserProfile
}.

(** What a handler leaves behind: the log, the calls sent to the
    backend and the number of clock readings. *)
Record Trace : Type := {
  errors : list string;
  calls : list StoreCall;
  clock : nat
}.

Definition H (A : Type) : Type := Trace -> Trace * result A.

#[global] Instance H_ret : MRet H := fun A a t => (t, Returned a).

#[global] Instance H_bind : MBind H := fun A B f m t =>
  match m t with
  | (t', Returned a) => f a t'
  | (t', Raised e) => (t', Raised e)
  end.

Definition fail {A : Type} (e : exn) : H A := fun t => (t, Raised e).

(** [try: body / except ...: handler] in a handler. *)
Definition attempt {A : Type} (body : H A) (handler : exn -> H A) : H A :=
  fun t =>
    match body t with
    | (t', Returned a) => (t', Returned a)
    | (t', Raised e) => handler e t'
    end.

Definition log_error (line : string) : H unit :=
  fun t => ({| errors := errors t ++ [line]; calls := calls t; clock := clock t |},
            Returned tt).

Definition outcome {A : Type} (r : string + A) : H A :=
  match r with
  | inl msg => fail (Exception msg)
  | inr a => mret a
  end.

(** [d[key]]: a [KeyError] when the key is absent. *)
Definition subscript (d : Dict) (key : string) : H Value :=
  match d !! key with
  | Some v => mret v
  | None => fail (Exception ("'" +:+ key +:+ "'"))
  end.

Section Routes.
Context (ext : Services) (backend : Backend).

(** A table query, sent and answered. *)
Definition send (c : StoreCall) : H APIResponse :=
  fun t =>
    outcome (execute backend c)
            {| errors := errors t; calls := calls t ++ [c]; clock := clock t |}.

Definition auth_sign_in_with_password (credentials : Dict) : H AuthResponse :=
  fun t =>
    outcome (sign_in_with_password backend credentials)
            {| errors := errors t;
               calls := calls t ++ [SignInWithPassword credentials];
               clock := clock t |}.

Definition auth_sign_up (credentials : Dict) : H AuthResponse :=
  fun t =>
    outcome (sign_up backend credentials)
            {| errors := errors t;
               calls := calls t ++ [SignUp credentials];
               clock := clock t |}.

Definition utcnow : H Value :=
  fun t =>
    ({| errors := errors t; calls := calls t; clock := S (clock t) |},
     Returned (VStr (utcnow_isoformat backend (clock t)))).

(** [str(e)] in an [except Exception as e] clause. *)
Definition str (e : exn) : string :=
  match e with
  | HTTPException status detail _ => HTTPException_str backend status detail
  | _ => exn_str e
  end.

(** *** Auth endpoints *)

(** The dictionary that [login] returns. *)
Record LoginResponse : Type := {
  login_access_token : string;
  login_token_type : string;
  login_expires_in : Z;
  login_user : AuthUser
}.

(** [response.session.access_token]: an [AttributeError] without a
    session. *)
Definition session_of (response : AuthResponse) (attribute : string)
  : H AuthSession :=
  match auth_session response with
  | Some session => mret session
  | None =>
      fail (Exception ("'NoneType' object has no attribute '" +:+ attribute +:+ "'"))
  end.

Definition login (request : LoginRequest) : H LoginResponse :=
  attempt
    (response ← auth_sign_in_with_password
       (<["email" := VStr (login_email request)]>
        (<["password" := VStr (login_password request)]> ∅));
     match auth_user response with
     | Some user =>
         session ← session_of response "access_token";
         mret {| login_access_token := access_token session;
                 login_token_type := "bearer";
                 login_expires_in := expires_in session;
                 login_user := user |}
     | None => fail (HTTPException 401 "Invalid credentials" None)
     end)
    (fun e => fail (HTTPException 400 (str e) None)).

(** The dictionary that [register] returns. *)
Record RegisterResponse : Type := {
  register_message : string;
  register_user_id : option string
}.

Definition register (request : RegisterRequest) : H RegisterResponse :=
  attempt
    (response ← auth_sign_up
       (<["email" := VStr (register_email request)]>
        (<["password" := VStr (register_password request)]>
        (<["options" := VDict
             (<["data" := VDict
                  (<["first_name" := optional_str (register_first_name request)]>
                   (<["last_name" := optional_str (register_last_name request)]>
                   (<["phone" := optional_str (register_phone request)]> ∅)))]> ∅)]>
         ∅)));
     mret {| register_message :=
               "Registration successful. Please check your email to verify your account.";
             register_user_id := auth_user_id <$> auth_user response |})
    (fun e => fail (HTTPException 400 (str e) None)).

(** *** Dashboard and organizations *)

(** [count or 0]. *)
Definition count_or_zero (count : option Z) : Z :=
  match count with
  | Some n => if n =? 0 then 0 else n
  | None => 0
  end.

Definition get_dashboard_stats (current_user : UserContext) : H DashboardStats :=
  if has_saas_role current_user then
    orgs ← send CountOrganizations;
    users ← send CountUserProfiles;
    mret {| total_organizations := count_or_zero (response_count orgs);
            total_users := count_or_zero (response_count users);
            active_campaigns := 0;
            total_messages_sent := 0 |}
  else
    mret {| total_organizations := Z.of_nat (length (memberships current_user));
            total_users := 0;
            active_campaigns := 0;
            total_messages_sent := 0 |}.

(** A list comprehension whose element expression may raise. *)
Fixpoint comprehension {A B : Type} (f : A -> H B) (l : list A) : H (list B) :=
  match l with
  | [] => mret []
  | x :: l =>
      y ← f x;
      ys ← comprehension f l;
      mret (y :: ys)
  end.

Definition get_organizations (current_user : UserContext) : H (list Organization) :=
  if has_saas_role current_user then
    result ← send SelectOrganizations;
    match response_data result with
    | [] => mret []
    | data => comprehension (fun org => outcome (Organization_new ext (VDict org))) data
    end
  else
    mret (omap organization (memberships current_user)).

(** The row that makes [user_id] a member of [org_id]. *)
Definition membership_row (user_id : Value) (org_id role invited_by : string)
    (invited_at accepted_at : Value) : Dict :=
  <["user_id" := user_id]>
  (<["organization_id" := VStr org_id]>
  (<["role" := VStr role]>
  (<["invited_by" := VStr invited_by]>
  (<["invited_at" := invited_at]>
  (<["accepted_at" := accepted_at]> ∅))))).

Definition create_organization (request : OrganizationCreate)
    (current_user : UserContext) : H Organization :=
  attempt
    (org_result ← send (InsertOrganization
                          (<["name" := VStr (create_name request)]>
                           (<["domain" := optional_str (create_domain request)]> ∅)));
     match response_data org_result with
     | [] => fail (HTTPException 400 "Failed to create organization" None)
     | org_data :: _ =>
         organization ← outcome (Organization_new ext (VDict org_data));
         invited_at ← utcnow;
         accepted_at ← utcnow;
         _ ← send (InsertMembership
                     (membership_row (VStr (id current_user)) (org_id organization)
                        (UserRole_value ORGANIZATION_OWNER) (id current_user)
                        invited_at accepted_at));
         mret organization
     end)
    (fun e =>
       _ ← log_error ("Error creating organization: " +:+ str e);
       fail (HTTPException 400 (str e) None)).

(** *** Members and invitations *)

(** The check that opens [get_organization_members] and
    [invite_user_to_organization]. *)
Definition check_access (org_id : string) (current_user : UserContext) : H unit :=
  if negb (has_saas_role current_user) then
    let membership := get_membership_for_organization current_user org_id in
    if negb (bool_decide (is_Some membership))
       || negb (has_minimum_role_in_organization current_user org_id
                  ORGANIZATION_ADMIN)
    then fail (HTTPException 403 "Access denied" None)
    else mret tt
  else mret tt.

(** An entry of the list of members: the row without its "user_profile"
    key, and the profile when the row had one. *)
Record Member : Type := {
  member_row : Dict;
  member_user_profile : option UserProfile
}.

(** The body of the loop over [result.data]. *)
Definition load_member (item : Dict) : H Member :=
  let '(profile_data, item) := dict_pop item "user_profile" (VDict ∅) in
  if truthy profile_data then
    user_profile ← outcome (UserProfile_of backend profile_data);
    mret {| member_row := item; member_user_profile := Some user_profile |}
  else mret {| member_row := item; member_user_profile := None |}.

Fixpoint load_members (members : list Member) (data : list Dict)
  : H (list Member) :=
  match data with
  | [] => mret members
  | item :: data =>
      member ← load_member item;
      load_members (members ++ [member]) data
  end.

Definition get_organization_members (org_id : string)
    (current_user : UserContext) : H (list Member) :=
  _ ← check_access org_id current_user;
  result ← send (SelectOrganizationMembers org_id);
  match response_data result with
  | [] => mret []
  | data => load_members [] data
  end.

Definition invite_user_to_organization (org_id : string)
    (request : InviteUserRequest) (current_user : UserContext) : H Dict :=
  _ ← check_access org_id current_user;
  attempt
    (user_result ← send (SelectProfileByEmail (invite_email request));
     match response_data user_result with
     | found :: _ =>
         user_id ← subscript found "id";
         existing ← send (SelectMembership user_id org_id);
         match response_data existing with
         | _ :: _ => fail (HTTPException 400 "User already a member" None)
         | [] =>
             invited_at ← utcnow;
             accepted_at ← utcnow;
             _ ← send (InsertMembership
                         (membership_row user_id org_id
                            (UserRole_value (invite_role request))
                            (id current_user) invited_at accepted_at));
             mret (<["message" := VStr "User invited successfully"]> ∅)
         end
     | [] =>
         fail (HTTPException 400 "User not found. User must register first." None)
     end)
    (fun e =>
       match e with
       | HTTPException _ _ _ => fail e
       | _ =>
           _ ← log_error ("Error inviting user: " +:+ str e);
           fail (HTTPException 400 (str e) None)
       end).

End Routes.

(** ** Bounds on effects *)

(** [m] leaves the log alone and sends at most [n] reads. *)
Definition reads_at_most {A : Type} (n : nat) (m : M A) : Prop :=
  forall w w' r, m w = (w', r) ->
    log w' = log w /\
    exists sent : list StoreRead,
      reads w' = (reads w ++ sent)%list /\ (length sent <= n)%nat.

(** ** Who may manage an organization *)

(** The caller holds a platform role in some membership, or the
    membership that the lookup returns for the organization -- the first
    active one -- is that of an admin or an owner. *)
Definition may_manage (self : UserContext) (org : string) : Prop :=
  (exists m, m ∈ memberships self /\ platform_role (role m)) \/
  (exists m, get_membership_for_organization self org = Some m /\
             (role m = ORGANIZATION_ADMIN \/ role m = ORGANIZATION_OWNER)).

(** [member.get(key)] in the dictionary that [get_organization_members]
    returns for a member: the profile object under "user_profile", the
    values of the row under the other keys. *)
Definition member_get (member : Member) (key : string)
  : option (Value + UserProfile) :=
  if String.eqb key "user_profile" then inr <$> member_user_profile member
  else inl <$> member_row member !! key.

(** The dictionary of a member against the row it was built from: the
    other keys as in the row; "user_profile" bound to the profile
    validated from the embedded one when that is truthy, and absent
    otherwise. *)
Definition member_of_row (backend : Backend) (item : Dict) (member : Member)
  : Prop :=
  (forall key, key <> "user_profile" ->
               member_get member key = inl <$> item !! key) /\
  let profile_data := default (VDict ∅) (item !! "user_profile") in
  if truthy profile_data then
    exists user_profile,
      UserProfile_of backend profile_data = inr user_profile /\
      member_get member "user_profile" = Some (inr user_profile)
  else member_get member "user_profile" = None.

(** The trace after more calls. *)
Definition after_calls (t : Trace) (sent : list StoreCall) : Trace :=
  {| errors := errors t; calls := calls t ++ sent; clock := clock t |}.

(** [m] fails with nothing but exceptions that satisfy [P]. *)
Definition fails_only {A : Type} (P : exn -> Prop) (m : H A) : Prop :=
  forall t t' e, m t = (t', Raised e) -> P e.

(** [m] leaves the trace as it found it. *)
Definition silent {A : Type} (m : H A) : Prop :=
  forall t t' r, m t = (t', r) -> t' = t.

(** ** A sample backend *)
Module Demo.

(** The identity store when it is down. *)
Definition store_down : Services :=
  {| jwt_decode := Sample.decode;
     select_user_profile := fun _ => inl "connection refused";
     select_memberships := fun _ => inl "connection refused";
     UserProfile_new := Sample.new_profile;
     OrganizationMembership_new := Sample.new_membership;
     Organization_new := Sample.new_organization;
     UserContext_fields := Sample.context_fields |}.

(** A membership row with a role that is no member of [UserRole]. *)
Definition wizard_row : Dict := Sample.membership_row "m7" "o3" "wizard".

Definition acme_row : Dict :=
  <["id" := VStr "o5"]> (<["name" := VStr "Acme"]> ∅).

Definition acme : Organization :=
  {| org_id := "o5"; org_name := "Acme"; domain := None;
     org_created_at := 0; org_updated_at := 0; org_is_active := true;
     subscription_tier := FREE; max_users := 5; settings := ∅ |}.

Definition rows (data : list Dict) : string + APIResponse :=
  inr {| response_data := data; response_count := None |}.

Definition counted (n : Z) : string + APIResponse :=
  inr {| response_data := []; response_count := Some n |}.

Definition member_item : Dict :=
  <["id" := VStr "m1"]> (<["role" := VStr "organization_owner"]>
    (<["user_profile" := VDict Sample.profile_row]> ∅)).

Definition ada : AuthUser := {| auth_user_id := "u1"; auth_user_fields := ∅ |}.

(** A backend that knows "u2@x.com" as user "u2", member of "o9" only;
    [inserted] is its answer to the insertion of a membership. *)
Definition backend (inserted : string + APIResponse) : Backend :=
  {| execute := fun c =>
       match c with
       | CountOrganizations => counted 3
       | CountUserProfiles => counted 12
       | SelectOrganizations => rows [acme_row]
       | SelectOrganizationMembers _ => rows [member_item]
       | SelectProfileByEmail e =>
           if String.eqb e "u2@x.com" then rows [<["id" := VStr "u2"]> ∅]
           else rows []
       | SelectMembership _ org =>
           if String.eqb org "o9" then rows [<["id" := VStr "m9"]> ∅]
           else rows []
       | InsertOrganization _ => rows [acme_row]
       | InsertMembership _ => inserted
       | SignInWithPassword _ | SignUp _ => inl "not a table query"
       end;
     sign_in_with_password := fun c =>
       match c !! "password" with
       | Some (VStr "secret") =>
           inr {| auth_user := Some ada;
                  auth_session := Some {| access_token := "tok";
                                          expires_in := 3600 |} |}
       | _ => inr {| auth_user := None; auth_session := None |}
       end;
     sign_up := fun _ => inr {| auth_user := Some ada; auth_session := None |};
     utcnow_isoformat := fun n =>
       match n with
       | O => "2024-01-01T00:00:00"
       | _ => "2024-01-01T00:00:01"
       end;
     HTTPException_str := fun status detail =>
       (if status =? 401 then "401: " else "400: ") +:+ detail;
     UserProfile_of := fun v =>
       match v with
       | VDict d => Sample.new_profile d
       | _ => inl "argument after ** must be a mapping"
       end |}.

Definition idle : Trace := {| errors := []; calls := []; clock := 0 |}.

Definition named (first last : option string) : UserProfile :=
  {| profile_id := "u3"; profile_email := "ada@x.com";
     first_name := first; last_name := last;
     avatar_url := None; phone := None; timezone := "UTC";
     profile_created_at := 0; profile_updated_at := 0;
     last_login := None; profile_is_active := true |}.

Definition ada_lovelace : UserProfile := named (Some "Ada") (Some "Lovelace").
Definition only_first : UserProfile := named (Some "Ada") (Some "").
Definition only_last : UserProfile := named None (Some "Lovelace").

Definition owner_only : UserContext := Sample.snapshot [Sample.owner_o1].
Definition plain_user : UserContext := Sample.snapshot [Sample.user_o1].

Definition invite (email : string) (r : UserRole) : InviteUserRequest :=
  {| invite_email := email; invite_role := r;
     invite_first_name := None; invite_last_name := None |}.

Definition new_acme : OrganizationCreate :=
  {| create_name := "Acme"; create_domain := None |}.

End Demo.

(** ** Kinds of failure *)

(** A bare exception: no HTTP error, so a 500 of the framework. *)
Definition bare (e : exn) : Prop :=
  match e with
  | HTTPException _ _ _ => False
  | _ => True
  end.


(** ** The [try] block of an invitation *)

Section InviteTry.
Context (backend : Backend).

(** The body of the [try] block of [invite_user_to_organization], by
    itself. *)
Definition invite_try (org : string) (request : InviteUserRequest)
    (self : UserContext) : H Dict :=
  user_result ← send backend (SelectProfileByEmail (invite_email request));
  match response_data user_result with
  | found :: _ =>
      user_id ← subscript found "id";
      existing ← send backend (SelectMembership user_id org);
      match response_data existing with
      | _ :: _ => fail (HTTPException 400 "User already a member" None)
      | [] =>
          invited_at ← utcnow backend;
          accepted_at ← utcnow backend;
          _ ← send backend
                (InsertMembership
                   (membership_row user_id org
                      (UserRole_value (invite_role request))
                      (id self) invited_at accepted_at));
          mret (<["message" := VStr "User invited successfully"]> ∅)
      end
  | [] =>
      fail (HTTPException 400 "User not found. User must register first." None)
  end.

End InviteTry.


(** The row that [create_organization] inserts for a request. *)
Definition organization_row (request : OrganizationCreate) : Dict :=
  <["name" := VStr (create_name request)]>
  (<["domain" := optional_str (create_domain request)]> ∅).

(** The credentials that [login] sends for a request. *)
Definition login_credentials (request : LoginRequest) : Dict :=
  <["email" := VStr (login_email request)]>
  (<["password" := VStr (login_password request)]> ∅).

(** * Proofs *)

(** ** Scenarios of the specification *)

Example scenario_membership_for_o1 :
  get_membership_for_organization (Sample.snapshot [Sample.owner_o1]) "o1"
  = Some Sample.owner_o1.
Proof. reflexivity. Qed.

Example scenario_minimum_role :
  let self := Sample.snapshot [Sample.owner_o1] in
  has_minimum_role_in_organization self "o1" ORGANIZATION_ADMIN = true /\
  has_minimum_role_in_organization self "o1" SAAS_ADMIN = false /\
  has_minimum_role_in_organization self "o2" ORGANIZATION_USER = false.
Proof. vm_compute. auto. Qed.

Example scenario_platform_role :
  has_saas_role (Sample.snapshot [Sample.owner_o1; Sample.admin_o9]) = true /\
  has_saas_role (Sample.snapshot [Sample.owner_o1]) = false.
Proof. vm_compute. auto. Qed.

Example scenario_pipeline :
  get_current_user (Sample.services Sample.two_rows) (Sample.bearer "good")
                   Sample.quiet
  = ({| log := [];
        reads := [SelectUserProfile (VStr "u1"); SelectMemberships (VStr "u1")] |},
     Returned {| id := "u1"; email := "u1@x.com"; profile := Sample.u1_profile;
                 memberships := [Sample.owner_o1; Sample.admin_o9];
                 raw_payload := Sample.claims (VStr "u1") |}).
Proof. vm_compute. reflexivity. Qed.

(** ** The role hierarchy *)

(** The levels of the dictionary follow the order of the roles. *)
Lemma role_level_rank (r : UserRole) : role_level r = Z.of_nat (rank r) + 1.
Proof. destruct r; reflexivity. Qed.

Lemma role_level_positive (r : UserRole) : 1 <= role_level r <= 6.
Proof. destruct r; vm_compute; split; discriminate. Qed.

Lemma role_level_ge (r1 r2 : UserRole) :
  (role_level r1 >=? role_level r2) = true <-> (rank r2 <= rank r1)%nat.
Proof. rewrite !role_level_rank, Z.geb_le. lia. Qed.

Lemma elem_of_saas_roles (r : UserRole) : r ∈ saas_roles <-> platform_role r.
Proof.
  unfold saas_roles, platform_role.
  rewrite !elem_of_union, !elem_of_singleton. tauto.
Qed.

Lemma role_kind (r : UserRole) : organization_role r <-> ~ platform_role r.
Proof.
  unfold organization_role, platform_role. destruct r; split.
  all: try (intros _ [K | [K | K]]; discriminate K).
  all: try (intros [K | [K | K]]; discriminate K).
  all: try (intros H; exfalso; apply H; auto; fail).
  all: auto.
Qed.

(** ** Looking a membership up *)

Lemma membership_matches_true (org : string) (m : OrganizationMembership) :
  membership_matches org m = true <-> active_in org m.
Proof.
  unfold membership_matches, active_in.
  rewrite andb_true_iff, String.eqb_eq. reflexivity.
Qed.

Lemma membership_matches_false (org : string) (m : OrganizationMembership) :
  membership_matches org m = false <-> ~ active_in org m.
Proof.
  rewrite <- membership_matches_true.
  destruct (membership_matches org m); split; congruence.
Qed.

Lemma first_match_None (org : string) (ms : list OrganizationMembership) :
  first_match org ms = None <-> Forall (fun x => ~ active_in org x) ms.
Proof.
  induction ms as [|m ms IH]; simpl.
  - split; [constructor | reflexivity].
  - destruct (membership_matches org m) eqn:E.
    + split; [discriminate |].
      intros H. apply Forall_cons in H as [H _].
      apply membership_matches_true in E. contradiction.
    + rewrite IH, Forall_cons. apply membership_matches_false in E. tauto.
Qed.

(** The lookup splits the list at its first active entry for the
    organization. *)
Lemma first_match_Some (org : string) (ms : list OrganizationMembership)
    (m : OrganizationMembership) :
  first_match org ms = Some m <->
  exists pre post : list OrganizationMembership,
    ms = (pre ++ m :: post)%list /\ active_in org m /\
    Forall (fun x => ~ active_in org x) pre.
Proof.
  induction ms as [|x ms IH]; simpl.
  - split; [discriminate |].
    intros (pre & post & H & _). destruct pre; discriminate.
  - destruct (membership_matches org x) eqn:E.
    + apply membership_matches_true in E. split.
      * intros [= <-]. exists [], ms. auto.
      * intros (pre & post & H & Hm & Hpre). destruct pre as [|y pre].
        -- simpl in H. congruence.
        -- injection H as -> ->. apply Forall_cons in Hpre as [Hy _].
           contradiction.
    + apply membership_matches_false in E. rewrite IH. split.
      * intros (pre & post & -> & Hm & Hpre).
        exists (x :: pre), post. auto.
      * intros (pre & post & H & Hm & Hpre). destruct pre as [|y pre].
        -- simpl in H. injection H as -> ->. contradiction.
        -- injection H as -> ->. apply Forall_cons in Hpre as [_ Hpre].
           eauto.
Qed.



Lemma get_membership_Some (self : UserContext) (org : string)
    (m : OrganizationMembership) :
  get_membership_for_organization self org = Some m ->
  m ∈ memberships self /\ active_in org m.
Proof.
  unfold get_membership_for_organization. intros H.
  apply first_match_Some in H as (pre & post & -> & Hm & _).
  split; [| exact Hm].
  apply elem_of_app. right. constructor.
Qed.

(** C3: [get_membership_for_organization] returns the first membership of
    the list, in list order, that belongs to the organization and is
    active -- every entry before it fails the test, also when later
    entries pass it -- and returns nothing when no entry passes. *)
Theorem get_membership_first_active (self : UserContext) (org : string) :
  match get_membership_for_organization self org with
  | Some m =>
      exists pre post : list OrganizationMembership,
        memberships self = (pre ++ m :: post)%list /\
        organization_id m = org /\ is_active m = true /\
        forall x, x ∈ pre -> ~ (organization_id x = org /\ is_active x = true)
  | None =>
      forall x, x ∈ memberships self ->
                ~ (organization_id x = org /\ is_active x = true)
  end.
Proof.
  unfold get_membership_for_organization.
  destruct (first_match org (memberships self)) as [m|] eqn:E.
  - apply first_match_Some in E as (pre & post & Hms & [Ho Ha] & Hpre).
    exists pre, post. repeat split; try assumption.
    intros x Hx. rewrite Forall_forall in Hpre. exact (Hpre x Hx).
  - apply first_match_None in E. rewrite Forall_forall in E. exact E.
Qed.

(** With two active memberships for one organization the lookup is the
    earlier one. *)
Example get_membership_duplicates :
  get_membership_for_organization
    (Sample.snapshot [Sample.retired_o9; Sample.user_o1; Sample.owner_o1]) "o1"
  = Some Sample.user_o1.
Proof. reflexivity. Qed.

(** C1, as amended: when the first active membership for the organization
    in list order has role r1 (so whenever the snapshot holds a single
    active membership for it), [has_minimum_role_in_organization] returns
    true exactly when rank(r1) >= rank(r2). *)
Theorem has_minimum_role_first_membership (self : UserContext) (org : string)
    (pre post : list OrganizationMembership) (m : OrganizationMembership)
    (r2 : UserRole) :
  memberships self = (pre ++ m :: post)%list ->
  (forall x, x ∈ pre -> ~ (organization_id x = org /\ is_active x = true)) ->
  organization_id m = org ->
  is_active m = true ->
  (has_minimum_role_in_organization self org r2 = true <->
   (rank (role m) >= rank r2)%nat).
Proof.
  intros Hms Hpre Ho Ha.
  assert (get_membership_for_organization self org = Some m) as E.
  { unfold get_membership_for_organization. apply first_match_Some.
    exists pre, post. repeat split; try assumption.
    apply Forall_forall. exact Hpre. }
  unfold has_minimum_role_in_organization. rewrite E. simpl.
  rewrite role_level_ge. reflexivity.
Qed.

Lemma has_minimum_role_first_membership_witness :
  memberships Sample.mixed
  = ([Sample.retired_o9] ++ Sample.owner_o1 :: [Sample.user_o1])%list /\
  (forall x, x ∈ [Sample.retired_o9] ->
             ~ (organization_id x = "o1" /\ is_active x = true)) /\
  organization_id Sample.owner_o1 = "o1" /\
  is_active Sample.owner_o1 = true /\
  (has_minimum_role_in_organization Sample.mixed "o1" ORGANIZATION_ADMIN = true <->
   (rank (role Sample.owner_o1) >= rank ORGANIZATION_ADMIN)%nat).
Proof.
  assert (forall x, x ∈ [Sample.retired_o9] ->
                    ~ (organization_id x = "o1" /\ is_active x = true)) as Hpre.
  { intros x Hx [Ho _]. apply list_elem_of_singleton in Hx. subst x.
    discriminate Ho. }
  split; [reflexivity |]. split; [exact Hpre |].
  split; [reflexivity |]. split; [reflexivity |].
  exact (has_minimum_role_first_membership
           Sample.mixed "o1" [Sample.retired_o9] [Sample.user_o1]
           Sample.owner_o1 ORGANIZATION_ADMIN eq_refl Hpre eq_refl eq_refl).
Defined.

(** C1, as stated, fails: a snapshot may hold an active membership as
    owner of "o1" behind an earlier active membership as plain user of
    "o1"; the check then goes by the earlier one. *)
Lemma has_minimum_role_duplicate_memberships :
  ~ (forall (self : UserContext) (org : string) (m : OrganizationMembership)
            (r2 : UserRole),
        m ∈ memberships self ->
        organization_id m = org -> is_active m = true ->
        (has_minimum_role_in_organization self org r2 = true <->
         (rank (role m) >= rank r2)%nat)).
Proof.
  intros claim.
  assert (Sample.owner_o1 ∈ memberships Sample.duplicates) as Hin.
  { right. left. }
  pose proof (claim Sample.duplicates "o1" Sample.owner_o1 ORGANIZATION_ADMIN
                Hin eq_refl eq_refl) as [_ H].
  assert (has_minimum_role_in_organization Sample.duplicates "o1"
            ORGANIZATION_ADMIN = false) as E by reflexivity.
  assert (rank (role Sample.owner_o1) >= rank ORGANIZATION_ADMIN)%nat as Hrank.
  { vm_compute. lia. }
  rewrite E in H. discriminate (H Hrank).
Qed.

(** The claim does hold for snapshots in which all active memberships for
    the organization carry one role, as the store is meant to keep them. *)
Lemma has_minimum_role_single_role (self : UserContext) (org : string)
    (m : OrganizationMembership) (r2 : UserRole) :
  (forall x, x ∈ memberships self -> active_in org x -> role x = role m) ->
  m ∈ memberships self -> active_in org m ->
  (has_minimum_role_in_organization self org r2 = true <->
   (rank (role m) >= rank r2)%nat).
Proof.
  intros Hsame Hin Hm. unfold has_minimum_role_in_organization.
  destruct (get_membership_for_organization self org) as [x|] eqn:E.
  - apply get_membership_Some in E as [Hx Hax].
    rewrite role_level_ge, (Hsame x Hx Hax). reflexivity.
  - unfold get_membership_for_organization in E.
    apply first_match_None in E. rewrite Forall_forall in E.
    destruct (E m Hin Hm).
Qed.

(** C4: without an active membership for the organization,
    [has_minimum_role_in_organization] returns false whatever the role
    asked for. *)
Theorem has_minimum_role_no_membership (self : UserContext) (org : string)
    (r : UserRole) :
  (forall m, m ∈ memberships self ->
             ~ (organization_id m = org /\ is_active m = true)) ->
  has_minimum_role_in_organization self org r = false.
Proof.
  intros Hnone. unfold has_minimum_role_in_organization.
  assert (get_membership_for_organization self org = None) as ->;
    [| reflexivity].
  apply first_match_None, Forall_forall. exact Hnone.
Qed.

Lemma has_minimum_role_no_membership_witness :
  (forall m, m ∈ memberships Sample.owner_and_retired ->
             ~ (organization_id m = "o9" /\ is_active m = true)) /\
  forall r, has_minimum_role_in_organization Sample.owner_and_retired "o9" r
            = false.
Proof.
  assert (forall m, m ∈ memberships Sample.owner_and_retired ->
                    ~ (organization_id m = "o9" /\ is_active m = true)) as Hnone.
  { intros m Hm [Ho Ha]. apply elem_of_cons in Hm as [-> | Hm].
    - discriminate Ho.
    - apply list_elem_of_singleton in Hm. subst m. discriminate Ha. }
  split; [exact Hnone |].
  intros r.
  exact (has_minimum_role_no_membership Sample.owner_and_retired "o9" r Hnone).
Defined.

(** ** Platform roles *)

Lemma has_saas_role_true (self : UserContext) :
  has_saas_role self = true <->
  exists m, m ∈ memberships self /\ platform_role (role m).
Proof.
  unfold has_saas_role. rewrite existsb_exists. split.
  - intros (m & Hin & Hm). exists m. split.
    + apply list_elem_of_In. exact Hin.
    + apply elem_of_saas_roles. apply bool_decide_eq_true in Hm. exact Hm.
  - intros (m & Hin & Hm). exists m. split.
    + apply list_elem_of_In. exact Hin.
    + apply bool_decide_eq_true, elem_of_saas_roles. exact Hm.
Qed.

(** C2: [has_saas_role] is true exactly when some membership of the list,
    of whatever organization, has one of the roles saas_accountant,
    saas_admin, saas_super_admin; it is false when every membership has
    an organization-level role. *)
Theorem has_saas_role_iff (self : UserContext) :
  (has_saas_role self = true <->
   exists m, m ∈ memberships self /\
             (role m = SAAS_ACCOUNTANT \/ role m = SAAS_ADMIN \/
              role m = SAAS_SUPER_ADMIN)) /\
  ((forall m, m ∈ memberships self ->
              role m = ORGANIZATION_USER \/ role m = ORGANIZATION_ADMIN \/
              role m = ORGANIZATION_OWNER) ->
   has_saas_role self = false).
Proof.
  split; [exact (has_saas_role_true self) |].
  intros Horg. apply not_true_is_false. intros H.
  apply has_saas_role_true in H as (m & Hin & Hm).
  exact (proj1 (role_kind (role m)) (Horg m Hin) Hm).
Qed.

Lemma has_saas_role_iff_witness :
  (exists m, m ∈ memberships Sample.owner_and_retired /\
             (role m = SAAS_ACCOUNTANT \/ role m = SAAS_ADMIN \/
              role m = SAAS_SUPER_ADMIN)) /\
  has_saas_role Sample.owner_and_retired = true /\
  (forall m, m ∈ memberships Sample.duplicates ->
             role m = ORGANIZATION_USER \/ role m = ORGANIZATION_ADMIN \/
             role m = ORGANIZATION_OWNER) /\
  has_saas_role Sample.duplicates = false.
Proof.
  assert (exists m, m ∈ memberships Sample.owner_and_retired /\
                    (role m = SAAS_ACCOUNTANT \/ role m = SAAS_ADMIN \/
                     role m = SAAS_SUPER_ADMIN)) as Hsaas.
  { exists Sample.retired_o9. split; [right; left | right; left; reflexivity]. }
  assert (forall m, m ∈ memberships Sample.duplicates ->
                    role m = ORGANIZATION_USER \/ role m = ORGANIZATION_ADMIN \/
                    role m = ORGANIZATION_OWNER) as Horg.
  { intros m Hm. apply elem_of_cons in Hm as [-> | Hm]; [left; reflexivity |].
    apply list_elem_of_singleton in Hm. subst m. right; right; reflexivity. }
  split; [exact Hsaas |].
  split; [exact (proj2 (proj1 (has_saas_role_iff Sample.owner_and_retired)) Hsaas) |].
  split; [exact Horg |].
  exact (proj2 (has_saas_role_iff Sample.duplicates) Horg).
Defined.



(** ** Determinism of the evaluator *)

Lemma py_bind_returned {A B : Type} (m : Objects.Py A) (f : A -> Objects.Py B)
    (mem mem' : Objects.Memory) (a : A) :
  m mem = (mem', Returned a) -> (m ≫= f) mem = f a mem'.
Proof. intros E. unfold mbind, Objects.Py_bind. rewrite E. reflexivity. Qed.

Lemma getattr_membership_at {A : Type} (attribute : OrganizationMembership -> A)
    (mem : Objects.Memory) (a : Objects.addr) (m : OrganizationMembership) :
  Objects.membership_at (Objects.objects mem) a = Some m ->
  Objects.getattr attribute a mem = (mem, Returned (attribute m)).
Proof.
  unfold Objects.membership_at, Objects.getattr.
  destruct (Objects.objects mem !! a) as [[attrs | ] |]; try discriminate.
  intros [= ->]. reflexivity.
Qed.

(** What holds a snapshot: a context object whose list refers to
    membership objects with the attributes of the snapshot's list. *)
Lemma snapshot_at_Some (h : gmap Objects.addr Objects.Obj) (self : Objects.addr)
    (ctx : UserContext) :
  Objects.snapshot_at h self = Some ctx ->
  exists i e p items payload,
    h !! self = Some (Objects.Context i e p items payload) /\
    Forall2 (fun a m => Objects.membership_at h a = Some m)
            items (memberships ctx).
Proof.
  unfold Objects.snapshot_at.
  destruct (h !! self) as [[attrs | i e p items payload] |]; try discriminate.
  destruct (mapM (Objects.membership_at h) items) as [ms |] eqn:E;
    [| discriminate].
  simpl. intros [= <-]. exists i, e, p, items, payload.
  split; [reflexivity |]. apply mapM_Some in E. exact E.
Qed.

(** The loop over the references reads its way to the answer of the loop
    over the values and changes nothing. *)
Lemma first_match_objects (org : string) (mem : Objects.Memory)
    (items : list Objects.addr) (ms : list OrganizationMembership) :
  Forall2 (fun a m => Objects.membership_at (Objects.objects mem) a = Some m)
          items ms ->
  exists found,
    Objects.first_match org items mem = (mem, Returned found) /\
    Objects.denotes (Objects.objects mem) (Objects.Ref found)
                    (AnsMembership (first_match org ms)).
Proof.
  induction 1 as [|a m items ms Ham _ IH]; simpl.
  - exists None. split; [reflexivity | exact I].
  - rewrite (py_bind_returned _ _ _ _ _
               (getattr_membership_at organization_id _ _ _ Ham)).
    unfold membership_matches.
    destruct (String.eqb (organization_id m) org); simpl; [| exact IH].
    rewrite (py_bind_returned _ _ _ _ _
               (getattr_membership_at is_active _ _ _ Ham)).
    destruct (is_active m); [| exact IH].
    exists (Some a). split; [reflexivity | exact Ham].
Qed.

Lemma any_saas_role_objects (mem : Objects.Memory)
    (items : list Objects.addr) (ms : list OrganizationMembership) :
  Forall2 (fun a m => Objects.membership_at (Objects.objects mem) a = Some m)
          items ms ->
  Objects.any_saas_role items mem
  = (mem, Returned (existsb (fun m => bool_decide (role m ∈ saas_roles)) ms)).
Proof.
  induction 1 as [|a m items ms Ham _ IH]; simpl; [reflexivity |].
  rewrite (py_bind_returned _ _ _ _ _ (getattr_membership_at role _ _ _ Ham)).
  destruct (bool_decide (role m ∈ saas_roles)); [reflexivity | exact IH].
Qed.

Section ObjectsProofs.
Context (mem : Objects.Memory) (self_addr : Objects.addr) (self : UserContext).
Hypothesis holds :
  Objects.snapshot_at (Objects.objects mem) self_addr = Some self.

Lemma get_membership_objects (org : string) :
  exists found,
    Objects.get_membership_for_organization self_addr org mem
    = (mem, Returned found) /\
    Objects.denotes (Objects.objects mem) (Objects.Ref found)
                    (AnsMembership (get_membership_for_organization self org)).
Proof.
  destruct (snapshot_at_Some _ _ _ holds)
    as (i & e & p & items & payload & Hctx & Hms).
  destruct (first_match_objects org mem _ _ Hms) as (found & Hloop & Hfound).
  exists found. split; [| exact Hfound].
  unfold Objects.get_membership_for_organization.
  assert (Objects.getattr_memberships self_addr mem = (mem, Returned items))
    as Hitems.
  { unfold Objects.getattr_memberships. rewrite Hctx. reflexivity. }
  rewrite (py_bind_returned _ _ _ _ _ Hitems). exact Hloop.
Qed.

Lemma has_minimum_role_objects (org : string) (min_role : UserRole) :
  Objects.has_minimum_role_in_organization self_addr org min_role mem
  = (mem, Returned (has_minimum_role_in_organization self org min_role)).
Proof.
  destruct (get_membership_objects org) as (found & Hget & Hfound).
  unfold Objects.has_minimum_role_in_organization,
    has_minimum_role_in_organization.
  rewrite (py_bind_returned _ _ _ _ _ Hget). simpl in Hfound.
  destruct found as [a |],
    (get_membership_for_organization self org) as [m |];
    try contradiction; [| reflexivity].
  rewrite (py_bind_returned _ _ _ _ _ (getattr_membership_at role _ _ _ Hfound)).
  reflexivity.
Qed.

Lemma has_saas_role_objects :
  Objects.has_saas_role self_addr mem = (mem, Returned (has_saas_role self)).
Proof.
  destruct (snapshot_at_Some _ _ _ holds)
    as (i & e & p & items & payload & Hctx & Hms).
  unfold Objects.has_saas_role.
  assert (Objects.getattr_memberships self_addr mem = (mem, Returned items))
    as Hitems.
  { unfold Objects.getattr_memberships. rewrite Hctx. reflexivity. }
  rewrite (py_bind_returned _ _ _ _ _ Hitems).
  exact (any_saas_role_objects _ _ _ Hms).
Qed.

(** Each call answers as the method on the value of the snapshot does,
    and hands the memory back as it got it. *)
Lemma ask_objects (q : EvaluatorQuery) :
  exists answer,
    Objects.ask self_addr q mem = (mem, Returned answer) /\
    Objects.denotes (Objects.objects mem) answer (evaluate self q).
Proof.
  destruct q as [org | org min_role |]; simpl.
  - destruct (get_membership_objects org) as (found & Hget & Hfound).
    exists (Objects.Ref found). split; [| exact Hfound].
    rewrite (py_bind_returned _ _ _ _ _ Hget). reflexivity.
  - exists (Objects.Bool (has_minimum_role_in_organization self org min_role)).
    split; [| exact eq_refl].
    rewrite (py_bind_returned _ _ _ _ _ (has_minimum_role_objects org min_role)).
    reflexivity.
  - exists (Objects.Bool (has_saas_role self)). split; [| exact eq_refl].
    rewrite (py_bind_returned _ _ _ _ _ has_saas_role_objects). reflexivity.
Qed.

End ObjectsProofs.

(** C9: on a memory that holds the snapshot, a query of the evaluator
    returns without changing anything -- no object, no log line, no
    store read; asked twice in a row with the same arguments it gives
    the same answer twice; and the answer is that of the method on the
    snapshot's value, so nothing else in the memory has a say in it. *)
Theorem evaluator_queries_repeatable (mem : Objects.Memory)
    (self_addr : Objects.addr) (self : UserContext) (q : EvaluatorQuery) :
  Objects.snapshot_at (Objects.objects mem) self_addr = Some self ->
  exists answer,
    Objects.ask self_addr q mem = (mem, Returned answer) /\
    (a1 ← Objects.ask self_addr q;
     a2 ← Objects.ask self_addr q;
     mret (a1, a2)) mem
    = (mem, Returned (answer, answer)) /\
    Objects.denotes (Objects.objects mem) answer (evaluate self q).
Proof.
  intros Hself.
  destruct (ask_objects mem self_addr self Hself q) as (answer & Hask & Hsame).
  exists answer. split; [exact Hask |]. split; [| exact Hsame].
  rewrite (py_bind_returned _ _ _ _ _ Hask).
  rewrite (py_bind_returned _ _ _ _ _ Hask). reflexivity.
Qed.

Lemma evaluator_queries_repeatable_witness :
  Objects.snapshot_at (Objects.objects SampleObjects.memory) 1%positive
  = Some (Sample.snapshot [Sample.retired_o9; Sample.user_o1; Sample.owner_o1]) /\
  exists answer,
    Objects.ask 1%positive (AskMembership "o1") SampleObjects.memory
    = (SampleObjects.memory, Returned answer) /\
    (a1 ← Objects.ask 1%positive (AskMembership "o1");
     a2 ← Objects.ask 1%positive (AskMembership "o1");
     mret (a1, a2)) SampleObjects.memory
    = (SampleObjects.memory, Returned (answer, answer)) /\
    Objects.denotes (Objects.objects SampleObjects.memory) answer
      (AnsMembership (Some Sample.user_o1)).
Proof.
  split; [reflexivity |].
  exact (evaluator_queries_repeatable SampleObjects.memory 1%positive
           (Sample.snapshot [Sample.retired_o9; Sample.user_o1; Sample.owner_o1])
           (AskMembership "o1") eq_refl).
Defined.

(** On the sample memory the lookup for "o1" returns the reference to
    the first active membership, the third object. *)
Example ask_membership_reference :
  Objects.ask 1%positive (AskMembership "o1") SampleObjects.memory
  = (SampleObjects.memory, Returned (Objects.Ref (Some 3%positive))) /\
  Objects.ask 1%positive AskSaasRole SampleObjects.memory
  = (SampleObjects.memory, Returned (Objects.Bool true)) /\
  Objects.ask 1%positive (AskMinimumRole "o1" ORGANIZATION_ADMIN)
              SampleObjects.memory
  = (SampleObjects.memory, Returned (Objects.Bool false)).
Proof. repeat split; reflexivity. Qed.

(** ** The pipeline *)

Lemma bind_returned {A B : Type} (m : M A) (f : A -> M B) (w w' : World) (a : A) :
  m w = (w', Returned a) -> (m ≫= f) w = f a w'.
Proof. intros H. unfold mbind, M_bind. rewrite H. reflexivity. Qed.

Lemma bind_raised {A B : Type} (m : M A) (f : A -> M B) (w w' : World) (e : exn) :
  m w = (w', Raised e) -> (m ≫= f) w = (w', Raised e).
Proof. intros H. unfold mbind, M_bind. rewrite H. reflexivity. Qed.

Lemma truthy_VDict (d : Dict) : truthy (VDict d) = true <-> d <> ∅.
Proof.
  simpl. rewrite negb_true_iff, Nat.eqb_neq. apply map_size_non_empty_iff.
Qed.

Lemma truthy_missing (d : Dict) (key : string) :
  d !! key = None -> truthy (dict_get d key) = false.
Proof. intros H. unfold dict_get. rewrite H. reflexivity. Qed.

Section PipelineProofs.
Context (ext : Services).

Lemma decode_token_returned (token : string) (payload : Dict) (w : World) :
  jwt_decode ext token = inr payload ->
  decode_token ext token w = (w, Returned payload).
Proof. intros H. unfold decode_token. rewrite H. reflexivity. Qed.

(** What [decode_token] raises for each failure of [jwt.decode]. *)
Lemma decode_token_raised (token : string) (e : exn) (w : World) :
  jwt_decode ext token = inl e ->
  decode_token ext token w =
  (w, Raised
        match e with
        | ExpiredSignatureError _ =>
            HTTPException 401 "Token has expired" www_authenticate
        | InvalidTokenError _ =>
            HTTPException 401 "Invalid authentication token" www_authenticate
        | PyJWTError _ =>
            HTTPException 401 "Could not validate credentials" www_authenticate
        | _ => e
        end).
Proof. intros H. unfold decode_token. rewrite H. destruct e; reflexivity. Qed.

Lemma get_user_id_returned (payload : Dict) (w : World) :
  truthy (dict_get payload "sub") = true ->
  get_user_id payload w = (w, Returned (dict_get payload "sub")).
Proof. intros H. unfold get_user_id. rewrite H. reflexivity. Qed.

Lemma get_user_email_returned (payload : Dict) (w : World) :
  truthy (dict_get payload "email") = true ->
  get_user_email payload w = (w, Returned (dict_get payload "email")).
Proof. intros H. unfold get_user_email. rewrite H. reflexivity. Qed.

(** The loop appends the memberships of the rows, row by row. *)
Lemma load_memberships_returned (rows : list Dict)
    (ms acc : list OrganizationMembership) (w : World) :
  Forall2 (fun item m => forall w, load_membership ext item w = (w, Returned m))
          rows ms ->
  load_memberships ext acc rows w = (w, Returned (acc ++ ms)%list).
Proof.
  intros H. revert acc. induction H as [|item m rows ms Hm _ IH]; intros acc.
  - simpl. rewrite app_nil_r. reflexivity.
  - simpl. rewrite (bind_returned _ _ w w m (Hm w)).
    rewrite IH, <- app_assoc. reflexivity.
Qed.

(** The loop stops at the first row that does not load. *)
Lemma load_memberships_raised (rows rest : list Dict) (bad : Dict)
    (ms acc : list OrganizationMembership) (e : exn) (w : World) :
  Forall2 (fun item m => forall w, load_membership ext item w = (w, Returned m))
          rows ms ->
  load_membership ext bad w = (w, Raised e) ->
  load_memberships ext acc (rows ++ bad :: rest) w = (w, Raised e).
Proof.
  intros H Hbad. revert acc. induction H as [|item m rows ms Hm _ IH]; intros acc.
  - simpl. apply bind_raised. exact Hbad.
  - simpl. rewrite (bind_returned _ _ w w m (Hm w)). apply IH.
Qed.

(** The [try] block up to the read of the profile. *)
Lemma try_until_profile (token : string) (payload : Dict) (w : World) :
  jwt_decode ext token = inr payload ->
  truthy (dict_get payload "sub") = true ->
  truthy (dict_get payload "email") = true ->
  get_current_user_try ext token w =
  (data ← lift (select_user_profile ext (dict_get payload "sub"));
   match data with
   | None => raise (HTTPException 401 "User profile not found" None)
   | Some row =>
       if negb (truthy (VDict row)) then
         raise (HTTPException 401 "User profile not found" None)
       else
         profile ← lift (UserProfile_new ext row);
         rows ← execute_memberships ext (dict_get payload "sub");
         memberships ←
           (if truthy (VList (VDict <$> rows))
            then load_memberships ext [] rows else mret []);
         new_UserContext ext (dict_get payload "sub")
           (dict_get payload "email") profile memberships payload
   end) (after_read w [SelectUserProfile (dict_get payload "sub")]).
Proof.
  intros Hjwt Hsub Hemail. unfold get_current_user_try.
  rewrite (bind_returned _ _ w w payload (decode_token_returned _ _ _ Hjwt)).
  rewrite (bind_returned _ _ w w _ (get_user_id_returned _ _ Hsub)).
  rewrite (bind_returned _ _ w w _ (get_user_email_returned _ _ Hemail)).
  reflexivity.
Qed.

(** C5, as amended: every failing token is answered with status 401.
    For a failure of PyJWT the detail names the class of the failure --
    "Token has expired", "Invalid authentication token" or "Could not
    validate credentials" -- with the bearer challenge header, and
    nothing is logged; any other exception of the decoder is logged and
    answered with the generic "Authentication failed". *)
Theorem failing_token_unauthorized (c : HTTPAuthorizationCredentials)
    (e : exn) (w : World) :
  jwt_decode ext (credentials c) = inl e ->
  (forall status detail headers, e <> HTTPException status detail headers) ->
  get_current_user ext (Some c) w =
  match e with
  | ExpiredSignatureError _ =>
      (w, Raised (HTTPException 401 "Token has expired" www_authenticate))
  | InvalidTokenError _ =>
      (w, Raised (HTTPException 401 "Invalid authentication token"
                                www_authenticate))
  | PyJWTError _ =>
      (w, Raised (HTTPException 401 "Could not validate credentials"
                                www_authenticate))
  | _ =>
      (after_log w ("Error in get_current_user: " +:+ exn_str e),
       Raised (HTTPException 401 "Authentication failed" None))
  end.
Proof.
  intros Hjwt Hnot. unfold get_current_user, try_except, get_current_user_try.
  rewrite (bind_raised _ _ w w _ (decode_token_raised _ _ _ Hjwt)).
  destruct e; try reflexivity.
  destruct (Hnot status_code detail headers eq_refl).
Qed.

(** C6: a token that decodes but carries no subject, or no email, is
    refused with status 401 before the store is read or anything is
    logged, and no snapshot is returned. *)
Theorem missing_claim_unauthorized (c : HTTPAuthorizationCredentials)
    (payload : Dict) (w : World) :
  jwt_decode ext (credentials c) = inr payload ->
  truthy (dict_get payload "sub") = false \/
  truthy (dict_get payload "email") = false ->
  get_current_user ext (Some c) w =
  (w, Raised (HTTPException 401
                (if truthy (dict_get payload "sub")
                 then "Token does not contain user email"
                 else "Token does not contain user ID") None)).
Proof.
  intros Hjwt Hlack. unfold get_current_user, try_except, get_current_user_try.
  rewrite (bind_returned _ _ w w payload (decode_token_returned _ _ _ Hjwt)).
  destruct (truthy (dict_get payload "sub")) eqn:Hsub.
  - destruct Hlack as [Hlack | Hemail]; [discriminate Hlack |].
    rewrite (bind_returned _ _ w w _ (get_user_id_returned _ _ Hsub)).
    unfold get_user_email. rewrite Hemail. reflexivity.
  - unfold get_user_id. rewrite Hsub. reflexivity.
Qed.

(** C7: when the store has no profile row for the subject, the request
    is refused with status 401 and the detail "User profile not found"
    -- an authentication failure, not a 404 -- after the one read of
    the profile, and no snapshot is returned. *)
Theorem missing_profile_unauthorized (c : HTTPAuthorizationCredentials)
    (payload : Dict) (data : option Dict) (w : World) :
  jwt_decode ext (credentials c) = inr payload ->
  truthy (dict_get payload "sub") = true ->
  truthy (dict_get payload "email") = true ->
  select_user_profile ext (dict_get payload "sub") = inr data ->
  data = None \/ data = Some ∅ ->
  get_current_user ext (Some c) w =
  (after_read w [SelectUserProfile (dict_get payload "sub")],
   Raised (HTTPException HTTP_401_UNAUTHORIZED "User profile not found" None)).
Proof.
  intros Hjwt Hsub Hemail Hstore Hdata.
  unfold get_current_user, try_except.
  rewrite (try_until_profile _ _ _ Hjwt Hsub Hemail), Hstore.
  destruct Hdata as [-> | ->]; reflexivity.
Qed.

(** C8: with a profile row and the membership rows of the store, the
    snapshot lists the memberships of the rows one for one in the order
    of the fetch; with no membership row the request succeeds and the
    list is empty. *)
Theorem snapshot_keeps_fetch_order (c : HTTPAuthorizationCredentials)
    (payload row : Dict) (profile : UserProfile) (rows : list Dict)
    (ms : list OrganizationMembership) (uid em : string) (w : World) :
  jwt_decode ext (credentials c) = inr payload ->
  truthy (dict_get payload "sub") = true ->
  truthy (dict_get payload "email") = true ->
  select_user_profile ext (dict_get payload "sub") = inr (Some row) ->
  row <> ∅ ->
  UserProfile_new ext row = inr profile ->
  select_memberships ext (dict_get payload "sub") = inr rows ->
  Forall2 (fun item m => forall w, load_membership ext item w = (w, Returned m))
          rows ms ->
  UserContext_fields ext (dict_get payload "sub") (dict_get payload "email")
  = inr (uid, em) ->
  get_current_user ext (Some c) w =
  (after_read w [SelectUserProfile (dict_get payload "sub");
                 SelectMemberships (dict_get payload "sub")],
   Returned {| id := uid; email := em; profile := profile;
               memberships := ms; raw_payload := payload |}) /\
  (rows = [] -> ms = []).
Proof.
  intros Hjwt Hsub Hemail Hprofile Hrow Hvalid Hrows Hload Hfields.
  split; [| intros ->; inversion Hload; reflexivity].
  apply truthy_VDict in Hrow.
  set (w1 := after_read w [SelectUserProfile (dict_get payload "sub")]).
  set (w2 := after_read w [SelectUserProfile (dict_get payload "sub");
                           SelectMemberships (dict_get payload "sub")]).
  assert (execute_memberships ext (dict_get payload "sub") w1
          = (w2, Returned rows)) as Hfetch.
  { unfold execute_memberships. rewrite Hrows. subst w1 w2.
    unfold after_read. simpl. rewrite <- app_assoc. reflexivity. }
  assert ((if truthy (VList (VDict <$> rows))
           then load_memberships ext [] rows else mret []) w2
          = (w2, Returned ms)) as Hloop.
  { destruct Hload as [|item m rows ms Hm Hrest]; [reflexivity |].
    apply (load_memberships_returned (item :: rows) (m :: ms) []).
    constructor; assumption. }
  assert (get_current_user_try ext (credentials c) w
          = (w2, Returned {| id := uid; email := em; profile := profile;
                             memberships := ms; raw_payload := payload |}))
    as Htry.
  { rewrite (try_until_profile _ _ _ Hjwt Hsub Hemail), Hprofile. fold w1.
    rewrite (bind_returned _ _ w1 w1 (Some row) eq_refl).
    cbv beta iota. rewrite Hrow. cbn [negb].
    rewrite Hvalid.
    rewrite (bind_returned _ _ w1 w1 profile eq_refl).
    rewrite (bind_returned _ _ w1 w2 rows Hfetch).
    rewrite (bind_returned _ _ w2 w2 ms Hloop).
    unfold new_UserContext. rewrite Hfields. reflexivity. }
  unfold get_current_user, try_except. rewrite Htry. reflexivity.
Qed.

(** *** Every failure is a 401 *)

Lemma raises_only_bind {A B : Type} (P : exn -> Prop) (m : M A) (f : A -> M B) :
  raises_only P m -> (forall a, raises_only P (f a)) -> raises_only P (m ≫= f).
Proof.
  intros Hm Hf w w' e. unfold mbind, M_bind.
  destruct (m w) as [w1 [a | e1]] eqn:E.
  - apply Hf.
  - intros [= <- <-]. exact (Hm _ _ _ E).
Qed.

Lemma raises_only_ret {A : Type} (P : exn -> Prop) (a : A) :
  raises_only P (mret a).
Proof. intros w w' e. discriminate. Qed.

Lemma raises_only_raise {A : Type} (P : exn -> Prop) (e : exn) :
  P e -> raises_only P (@raise A e).
Proof. intros He w w' e'. intros [= <- <-]. exact He. Qed.

Lemma raises_only_lift {A : Type} (r : string + A) :
  raises_only unauthorized_if_http (lift r).
Proof.
  destruct r as [msg | a]; simpl.
  - apply raises_only_raise. exact I.
  - apply raises_only_ret.
Qed.

Lemma raises_only_load_membership (item : Dict) :
  raises_only unauthorized_if_http (load_membership ext item).
Proof.
  unfold load_membership, dict_pop.
  apply raises_only_bind; [apply raises_only_lift |]. intros m.
  destruct (truthy _); [| apply raises_only_ret].
  apply raises_only_bind; [apply raises_only_lift |]. intros org.
  apply raises_only_ret.
Qed.

Lemma raises_only_load_memberships (rows : list Dict)
    (acc : list OrganizationMembership) :
  raises_only unauthorized_if_http (load_memberships ext acc rows).
Proof.
  revert acc. induction rows as [|item rows IH]; intros acc; simpl.
  - apply raises_only_ret.
  - apply raises_only_bind; [apply raises_only_load_membership |].
    intros m. apply IH.
Qed.

Hypothesis jwt_raises_no_http :
  forall token status detail headers,
    jwt_decode ext token <> inl (HTTPException status detail headers).

Lemma raises_only_decode_token (token : string) :
  raises_only unauthorized_if_http (decode_token ext token).
Proof.
  unfold decode_token.
  destruct (jwt_decode ext token) as [e | payload] eqn:E.
  - destruct e; apply raises_only_raise; try exact I; try reflexivity.
    destruct (jwt_raises_no_http _ _ _ _ E).
  - apply raises_only_ret.
Qed.

Lemma raises_only_try (token : string) :
  raises_only unauthorized_if_http (get_current_user_try ext token).
Proof.
  unfold get_current_user_try.
  apply raises_only_bind; [apply raises_only_decode_token |]. intros payload.
  apply raises_only_bind.
  { unfold get_user_id. destruct (negb _);
      [apply raises_only_raise; reflexivity | apply raises_only_ret]. }
  intros uid. apply raises_only_bind.
  { unfold get_user_email. destruct (negb _);
      [apply raises_only_raise; reflexivity | apply raises_only_ret]. }
  intros em. apply raises_only_bind.
  { intros w w' e. unfold execute_user_profile. apply raises_only_lift. }
  intros [row |]; [| apply raises_only_raise; reflexivity].
  destruct (negb _); [apply raises_only_raise; reflexivity |].
  apply raises_only_bind; [apply raises_only_lift |]. intros profile.
  apply raises_only_bind.
  { intros w w' e. unfold execute_memberships. apply raises_only_lift. }
  intros rows. apply raises_only_bind.
  { destruct (truthy _);
      [apply raises_only_load_memberships | apply raises_only_ret]. }
  intros ms. unfold new_UserContext.
  apply raises_only_bind; [apply raises_only_lift |].
  intros [i e]. apply raises_only_ret.
Qed.

(** Whatever goes wrong -- no credentials, a failing token, a missing
    claim, a store that raises, a row that does not validate -- the
    caller gets an HTTP error with status 401, never another status and
    never a bare exception. *)
Lemma get_current_user_raises_401
    (creds : option HTTPAuthorizationCredentials) (w w' : World) (e : exn) :
  get_current_user ext creds w = (w', Raised e) ->
  exists detail headers, e = HTTPException 401 detail headers.
Proof.
  destruct creds as [c |]; simpl.
  - unfold try_except.
    destruct (get_current_user_try ext (credentials c) w)
      as [w1 [ctx | e1]] eqn:E; [discriminate |].
    pose proof (raises_only_try _ _ _ _ E) as H401.
    destruct e1; simpl in H401.
    + intros [= <- <-]. subst. eauto.
    + intros [= <- <-]. eauto.
    + intros [= <- <-]. eauto.
    + intros [= <- <-]. eauto.
    + intros [= <- <-]. eauto.
  - intros [= <- <-]. eauto.
Qed.

End PipelineProofs.

(** ** The pipeline on the sample store *)

Lemma failing_token_unauthorized_witness :
  jwt_decode (Sample.services []) (credentials (Sample.creds "expired"))
  = inl (ExpiredSignatureError "Signature has expired") /\
  (forall status detail headers,
     ExpiredSignatureError "Signature has expired"
     <> HTTPException status detail headers) /\
  get_current_user (Sample.services []) (Sample.bearer "expired") Sample.quiet
  = (Sample.quiet,
     Raised (HTTPException 401 "Token has expired" www_authenticate)).
Proof.
  assert (forall status detail headers,
            ExpiredSignatureError "Signature has expired"
            <> HTTPException status detail headers) as Hnot.
  { intros status detail headers H. discriminate H. }
  split; [reflexivity |]. split; [exact Hnot |].
  exact (failing_token_unauthorized (Sample.services [])
           (Sample.creds "expired")
           (ExpiredSignatureError "Signature has expired")
           Sample.quiet eq_refl Hnot).
Defined.

(** C5, as stated, fails: the answer to a failing token is not the same
    for every failure.  An expired token is answered "Token has expired",
    a forged one "Invalid authentication token", and neither reason goes
    to the log. *)
Lemma failing_token_reason_disclosed :
  ~ (forall (ext : Services) (c1 c2 : HTTPAuthorizationCredentials)
            (e1 e2 : exn) (w : World),
        jwt_decode ext (credentials c1) = inl e1 ->
        jwt_decode ext (credentials c2) = inl e2 ->
        jwt_failure e1 -> jwt_failure e2 ->
        snd (get_current_user ext (Some c1) w)
        = snd (get_current_user ext (Some c2) w)).
Proof.
  intros claim.
  pose proof (claim (Sample.services []) (Sample.creds "expired")
                (Sample.creds "forged")
                (ExpiredSignatureError "Signature has expired")
                (InvalidTokenError "Signature verification failed")
                Sample.quiet eq_refl eq_refl I I) as H.
  vm_compute in H. discriminate H.
Qed.

Example expired_token_answer :
  get_current_user (Sample.services []) (Sample.bearer "expired") Sample.quiet
  = (Sample.quiet,
     Raised (HTTPException 401 "Token has expired" www_authenticate)) /\
  get_current_user (Sample.services []) (Sample.bearer "forged") Sample.quiet
  = (Sample.quiet,
     Raised (HTTPException 401 "Invalid authentication token" www_authenticate)).
Proof. split; reflexivity. Qed.

Lemma missing_claim_unauthorized_witness :
  jwt_decode (Sample.services Sample.two_rows) (credentials (Sample.creds "nosub"))
  = inr (delete "sub" (Sample.claims VNone)) /\
  truthy (dict_get (delete "sub" (Sample.claims VNone)) "sub") = false /\
  get_current_user (Sample.services Sample.two_rows) (Sample.bearer "nosub")
                   Sample.quiet
  = (Sample.quiet,
     Raised (HTTPException 401 "Token does not contain user ID" None)).
Proof.
  split; [reflexivity |]. split; [reflexivity |].
  exact (missing_claim_unauthorized (Sample.services Sample.two_rows)
           (Sample.creds "nosub") (delete "sub" (Sample.claims VNone))
           Sample.quiet eq_refl (or_introl eq_refl)).
Defined.

(** An empty subject is refused like an absent one, and so is a token
    with a subject and no email. *)
Example empty_claims_refused :
  let ext (payload : Dict) :=
    {| jwt_decode := fun _ => inr payload;
       select_user_profile := select_user_profile (Sample.services []);
       select_memberships := select_memberships (Sample.services []);
       UserProfile_new := Sample.new_profile;
       OrganizationMembership_new := Sample.new_membership;
       Organization_new := Sample.new_organization;
       UserContext_fields := Sample.context_fields |} in
  get_current_user (ext (Sample.claims (VStr ""))) (Sample.bearer "t") Sample.quiet
  = (Sample.quiet,
     Raised (HTTPException 401 "Token does not contain user ID" None)) /\
  get_current_user (ext (delete "email" (Sample.claims (VStr "u1"))))
                   (Sample.bearer "t") Sample.quiet
  = (Sample.quiet,
     Raised (HTTPException 401 "Token does not contain user email" None)).
Proof. split; reflexivity. Qed.

Lemma missing_profile_unauthorized_witness :
  jwt_decode (Sample.services Sample.two_rows)
             (credentials (Sample.creds "stranger"))
  = inr (Sample.claims (VStr "u7")) /\
  select_user_profile (Sample.services Sample.two_rows)
                      (dict_get (Sample.claims (VStr "u7")) "sub")
  = inr None /\
  get_current_user (Sample.services Sample.two_rows) (Sample.bearer "stranger")
                   Sample.quiet
  = ({| log := []; reads := [SelectUserProfile (VStr "u7")] |},
     Raised (HTTPException 401 "User profile not found" None)).
Proof.
  split; [reflexivity |]. split; [reflexivity |].
  exact (missing_profile_unauthorized (Sample.services Sample.two_rows)
           (Sample.creds "stranger") (Sample.claims (VStr "u7")) None
           Sample.quiet eq_refl eq_refl eq_refl eq_refl (or_introl eq_refl)).
Defined.

Lemma snapshot_keeps_fetch_order_witness :
  Forall2 (fun item m =>
             forall w, load_membership (Sample.services Sample.two_rows) item w
                       = (w, Returned m))
          Sample.two_rows [Sample.owner_o1; Sample.admin_o9] /\
  get_current_user (Sample.services Sample.two_rows) (Sample.bearer "good")
                   Sample.quiet
  = ({| log := [];
        reads := [SelectUserProfile (VStr "u1"); SelectMemberships (VStr "u1")] |},
     Returned {| id := "u1"; email := "u1@x.com"; profile := Sample.u1_profile;
                 memberships := [Sample.owner_o1; Sample.admin_o9];
                 raw_payload := Sample.claims (VStr "u1") |}).
Proof.
  assert (Forall2 (fun item m =>
             forall w, load_membership (Sample.services Sample.two_rows) item w
                       = (w, Returned m))
          Sample.two_rows [Sample.owner_o1; Sample.admin_o9]) as Hload.
  { repeat constructor. }
  assert (Sample.profile_row <> ∅) as Hrow.
  { intros H. apply (f_equal (fun d : Dict => d !! "id")) in H.
    discriminate H. }
  split; [exact Hload |].
  exact (proj1 (snapshot_keeps_fetch_order (Sample.services Sample.two_rows)
                  (Sample.creds "good") (Sample.claims (VStr "u1"))
                  Sample.profile_row Sample.u1_profile Sample.two_rows
                  [Sample.owner_o1; Sample.admin_o9] "u1" "u1@x.com"
                  Sample.quiet eq_refl eq_refl eq_refl eq_refl Hrow eq_refl
                  eq_refl Hload eq_refl)).
Defined.

(** A user without memberships gets a snapshot with an empty list. *)
Example no_membership_rows :
  get_current_user (Sample.services []) (Sample.bearer "good") Sample.quiet
  = ({| log := [];
        reads := [SelectUserProfile (VStr "u1"); SelectMemberships (VStr "u1")] |},
     Returned {| id := "u1"; email := "u1@x.com"; profile := Sample.u1_profile;
                 memberships := [];
                 raw_payload := Sample.claims (VStr "u1") |}).
Proof. reflexivity. Qed.

(** A store that raises is logged and answered with the generic 401; the
    text of the store error stays in the log. *)
Example store_unavailable :
  get_current_user
    {| jwt_decode := Sample.decode;
       select_user_profile := fun _ => inl "connection refused";
       select_memberships := fun _ => inr [];
       UserProfile_new := Sample.new_profile;
       OrganizationMembership_new := Sample.new_membership;
       Organization_new := Sample.new_organization;
       UserContext_fields := Sample.context_fields |}
    (Sample.bearer "good") Sample.quiet
  = ({| log := ["Error in get_current_user: connection refused"];
        reads := [SelectUserProfile (VStr "u1")] |},
     Raised (HTTPException 401 "Authentication failed" None)).
Proof. reflexivity. Qed.

(** A row with its organization embedded: the organization is taken out
    of the row before the membership is built, and attached afterwards. *)
Example embedded_organization :
  let org := <["id" := VStr "o1"]> (<["name" := VStr "Acme"]> ∅) in
  let item := <["organization" := VDict org]>
                (Sample.membership_row "m1" "o1" "organization_owner") in
  option_map org_name
    (match load_membership (Sample.services []) item Sample.quiet with
     | (_, Returned m) => organization m
     | (_, Raised _) => None
     end)
  = Some "Acme".
Proof. reflexivity. Qed.

(** * More of the server *)

(** ** [full_name] *)

Lemma append_nonempty (a b : string) : a <> "" -> a +:+ b <> "".
Proof. destruct a; [congruence | discriminate]. Qed.

Lemma str_truthy_Some (s : option string) :
  str_truthy s = true -> exists x, s = Some x /\ x <> "".
Proof.
  destruct s as [x |]; simpl; [| discriminate].
  rewrite negb_true_iff, String.eqb_neq. eauto.
Qed.

Lemma full_name_nonempty (self : UserProfile) :
  profile_email self <> "" -> full_name self <> "".
Proof.
  intros Hemail. unfold full_name, str_or.
  destruct (str_truthy (first_name self)) eqn:Hf; simpl.
  - apply str_truthy_Some in Hf as (f & -> & Hf).
    destruct (str_truthy (last_name self)); simpl; [| exact Hf].
    apply append_nonempty. exact Hf.
  - destruct (str_truthy (last_name self)) eqn:Hl; [| exact Hemail].
    apply str_truthy_Some in Hl as (l & -> & Hl). exact Hl.
Qed.

Lemma str_truthy_given (s : option string) (x : string) :
  s = Some x -> x <> "" -> str_truthy s = true.
Proof.
  intros -> Hx. simpl. rewrite negb_true_iff, String.eqb_neq. exact Hx.
Qed.

Lemma str_truthy_missing (s : option string) :
  name_missing s -> str_truthy s = false.
Proof. intros [-> | ->]; reflexivity. Qed.

(** X1: The display name of a profile, case by case, where a name that
    is absent and a name that is empty count alike as missing: with both
    names it is "first last"; with one name it is that name; with none
    it is the email.  So it is never empty when the email is not. *)
Theorem full_name_display (self : UserProfile) :
  (forall f l,
     first_name self = Some f -> f <> "" ->
     last_name self = Some l -> l <> "" ->
     full_name self = f +:+ " " +:+ l) /\
  (forall f,
     first_name self = Some f -> f <> "" -> name_missing (last_name self) ->
     full_name self = f) /\
  (forall l,
     name_missing (first_name self) -> last_name self = Some l -> l <> "" ->
     full_name self = l) /\
  (name_missing (first_name self) -> name_missing (last_name self) ->
   full_name self = profile_email self) /\
  (profile_email self <> "" -> full_name self <> "").
Proof.
  unfold full_name, str_or. repeat split.
  - intros f l Hf Hfne Hl Hlne.
    rewrite (str_truthy_given _ _ Hf Hfne), (str_truthy_given _ _ Hl Hlne).
    rewrite Hf, Hl. reflexivity.
  - intros f Hf Hfne Hl.
    rewrite (str_truthy_given _ _ Hf Hfne), (str_truthy_missing _ Hl).
    rewrite Hf. reflexivity.
  - intros l Hf Hl Hlne.
    rewrite (str_truthy_missing _ Hf), (str_truthy_given _ _ Hl Hlne).
    rewrite Hl. reflexivity.
  - intros Hf Hl.
    rewrite (str_truthy_missing _ Hf), (str_truthy_missing _ Hl). reflexivity.
  - exact (full_name_nonempty self).
Qed.

Lemma full_name_display_witness :
  full_name Demo.ada_lovelace = "Ada Lovelace" /\
  full_name Demo.only_first = "Ada" /\
  full_name Demo.only_last = "Lovelace" /\
  name_missing (first_name Sample.u1_profile) /\
  name_missing (last_name Sample.u1_profile) /\
  full_name Sample.u1_profile = "u1@x.com" /\
  full_name Sample.u1_profile <> "".
Proof.
  assert ("Ada" <> "") as Hada by discriminate.
  assert ("Lovelace" <> "") as Hlovelace by discriminate.
  assert (profile_email Sample.u1_profile <> "") as Hemail by discriminate.
  destruct (full_name_display Demo.ada_lovelace) as (Hboth & _).
  destruct (full_name_display Demo.only_first) as (_ & Hfirst & _).
  destruct (full_name_display Demo.only_last) as (_ & _ & Hlast & _).
  destruct (full_name_display Sample.u1_profile) as (_ & _ & _ & Hnone & Hne).
  split; [exact (Hboth "Ada" "Lovelace" eq_refl Hada eq_refl Hlovelace) |].
  split; [exact (Hfirst "Ada" eq_refl Hada (or_intror eq_refl)) |].
  split; [exact (Hlast "Lovelace" (or_introl eq_refl) eq_refl Hlovelace) |].
  split; [left; reflexivity |]. split; [left; reflexivity |].
  split; [exact (Hnone (or_introl eq_refl) (or_introl eq_refl)) |].
  exact (Hne Hemail).
Defined.

(** An empty name counts as no name. *)
Example full_name_empty_first :
  full_name {| profile_id := "u1"; profile_email := "u1@x.com";
               first_name := Some ""; last_name := Some "Lovelace";
               avatar_url := None; phone := None; timezone := "UTC";
               profile_created_at := 0; profile_updated_at := 0;
               last_login := None; profile_is_active := true |}
  = "Lovelace".
Proof. reflexivity. Qed.

(** ** More on the pipeline *)

Lemma bind_inv_returned {A B : Type} (m : M A) (f : A -> M B)
    (w w' : World) (b : B) :
  (m ≫= f) w = (w', Returned b) ->
  exists w1 a, m w = (w1, Returned a) /\ f a w1 = (w', Returned b).
Proof.
  unfold mbind, M_bind. destruct (m w) as [w1 [a | e]]; [eauto | discriminate].
Qed.

Lemma lift_inv_returned {A : Type} (r : string + A) (w w' : World) (a : A) :
  lift r w = (w', Returned a) -> r = inr a /\ w' = w.
Proof.
  destruct r as [msg | x]; simpl; [discriminate |].
  intros [= <- <-]. auto.
Qed.

Section PipelineMore.
Context (ext : Services).

(** Loading a row neither reads nor changes the world. *)
Lemma load_membership_world (item : Dict) (w1 w2 : World) :
  load_membership ext item w1 = (w1, snd (load_membership ext item w2)).
Proof.
  unfold load_membership, dict_pop, mbind, M_bind.
  destruct (OrganizationMembership_new ext _) as [msg | m]; simpl;
    [reflexivity |].
  destruct (truthy _); [| reflexivity].
  unfold mbind, M_bind.
  destruct (Organization_new ext _) as [msg | o]; reflexivity.
Qed.

Lemma load_membership_returned (item : Dict) (m : OrganizationMembership)
    (w w' : World) :
  load_membership ext item w = (w', Returned m) ->
  w' = w /\ forall w0, load_membership ext item w0 = (w0, Returned m).
Proof.
  intros H. rewrite (load_membership_world item w w) in H.
  injection H as Hw Hr. split; [congruence |].
  intros w0. rewrite (load_membership_world item w0 w). congruence.
Qed.

Lemma load_memberships_inv (rows : list Dict)
    (acc ms : list OrganizationMembership) (w w' : World) :
  load_memberships ext acc rows w = (w', Returned ms) ->
  w' = w /\
  exists loaded : list OrganizationMembership,
    ms = (acc ++ loaded)%list /\
    Forall2 (fun item m => forall w, load_membership ext item w = (w, Returned m))
            rows loaded.
Proof.
  revert acc w. induction rows as [|item rows IH]; intros acc w; simpl.
  - intros [= <- <-]. split; [reflexivity |].
    exists []. rewrite app_nil_r. split; [reflexivity | constructor].
  - intros H. apply bind_inv_returned in H as (w1 & m & Hm & H).
    apply load_membership_returned in Hm as [-> Hm].
    apply IH in H as (-> & loaded & -> & Hrows).
    split; [reflexivity |]. exists (m :: loaded).
    rewrite <- app_assoc. split; [reflexivity |]. constructor; assumption.
Qed.

(** X3: A snapshot comes out of the pipeline only when every stage went
    through: the token decoded, both claims were there, the profile row
    was found and validated, every membership row loaded, and both reads
    were sent.  The snapshot carries exactly these results. *)
Theorem snapshot_only_from_complete_pipeline
    (creds : option HTTPAuthorizationCredentials) (w w' : World)
    (self : UserContext) :
  get_current_user ext creds w = (w', Returned self) ->
  exists (c : HTTPAuthorizationCredentials) (payload row : Dict)
         (rows : list Dict),
    creds = Some c /\
    jwt_decode ext (credentials c) = inr payload /\
    truthy (dict_get payload "sub") = true /\
    truthy (dict_get payload "email") = true /\
    select_user_profile ext (dict_get payload "sub") = inr (Some row) /\
    row <> ∅ /\
    UserProfile_new ext row = inr (profile self) /\
    select_memberships ext (dict_get payload "sub") = inr rows /\
    Forall2 (fun item m => forall w, load_membership ext item w = (w, Returned m))
            rows (memberships self) /\
    UserContext_fields ext (dict_get payload "sub") (dict_get payload "email")
    = inr (id self, email self) /\
    raw_payload self = payload /\
    w' = after_read w [SelectUserProfile (dict_get payload "sub");
                       SelectMemberships (dict_get payload "sub")].
Proof.
  destruct creds as [c |]; simpl; [| discriminate].
  unfold try_except.
  destruct (get_current_user_try ext (credentials c) w) as [w1 [ctx | e]] eqn:E.
  2: { destruct e; discriminate. }
  intros [= <- <-]. exists c.
  unfold get_current_user_try in E.
  apply bind_inv_returned in E as (w2 & p & Hdecode & E).
  unfold decode_token in Hdecode.
  destruct (jwt_decode ext (credentials c)) as [e | payload] eqn:Hjwt.
  { destruct e; discriminate. }
  injection Hdecode as <- <-.
  apply bind_inv_returned in E as (w3 & uid & Hid & E).
  unfold get_user_id in Hid.
  destruct (truthy (dict_get payload "sub")) eqn:Hsub; [| discriminate].
  injection Hid as <- <-.
  apply bind_inv_returned in E as (w4 & em & Hem & E).
  unfold get_user_email in Hem.
  destruct (truthy (dict_get payload "email")) eqn:Hemail; [| discriminate].
  injection Hem as <- <-.
  apply bind_inv_returned in E as (w5 & data & Hdata & E).
  unfold execute_user_profile in Hdata.
  apply lift_inv_returned in Hdata as [Hprofile ->].
  destruct data as [row |]; [| discriminate].
  destruct (truthy (VDict row)) eqn:Hrow; [| discriminate].
  apply truthy_VDict in Hrow. simpl negb in E. cbv iota in E.
  apply bind_inv_returned in E as (w6 & prof & Hprof & E).
  apply lift_inv_returned in Hprof as [Hvalid ->].
  apply bind_inv_returned in E as (w7 & rows & Hrows & E).
  unfold execute_memberships in Hrows.
  apply lift_inv_returned in Hrows as [Hfetch ->].
  apply bind_inv_returned in E as (w8 & ms & Hloop & E).
  assert (w8 = {| log := log w;
                  reads := (reads w ++ [SelectUserProfile (dict_get payload "sub")])
                           ++ [SelectMemberships (dict_get payload "sub")] |}
          /\ Forall2 (fun item m =>
                        forall w, load_membership ext item w = (w, Returned m))
                     rows ms) as [-> Hload].
  { destruct (truthy (VList (VDict <$> rows))) eqn:Hany.
    - apply load_memberships_inv in Hloop as (-> & loaded & -> & Hload).
      split; [reflexivity | exact Hload].
    - injection Hloop as <- <-. split; [reflexivity |].
      destruct rows; [constructor | discriminate]. }
  unfold new_UserContext in E.
  apply bind_inv_returned in E as (w9 & [i e] & Hfields & E).
  apply lift_inv_returned in Hfields as [Hfields ->].
  injection E as <- <-. simpl.
  exists payload, row, rows. repeat split; try assumption.
  unfold after_read. simpl. rewrite <- app_assoc. reflexivity.
Qed.

End PipelineMore.

Lemma snapshot_only_from_complete_pipeline_witness :
  get_current_user (Sample.services Sample.two_rows) (Sample.bearer "good")
                   Sample.quiet
  = ({| log := [];
        reads := [SelectUserProfile (VStr "u1"); SelectMemberships (VStr "u1")] |},
     Returned {| id := "u1"; email := "u1@x.com"; profile := Sample.u1_profile;
                 memberships := [Sample.owner_o1; Sample.admin_o9];
                 raw_payload := Sample.claims (VStr "u1") |}) /\
  exists (c : HTTPAuthorizationCredentials) (payload row : Dict)
         (rows : list Dict),
    Sample.bearer "good" = Some c /\
    jwt_decode (Sample.services Sample.two_rows) (credentials c) = inr payload /\
    select_memberships (Sample.services Sample.two_rows) (dict_get payload "sub")
    = inr rows /\
    length rows = 2%nat.
Proof.
  assert (get_current_user (Sample.services Sample.two_rows)
            (Sample.bearer "good") Sample.quiet
          = ({| log := [];
                reads := [SelectUserProfile (VStr "u1");
                          SelectMemberships (VStr "u1")] |},
             Returned {| id := "u1"; email := "u1@x.com";
                         profile := Sample.u1_profile;
                         memberships := [Sample.owner_o1; Sample.admin_o9];
                         raw_payload := Sample.claims (VStr "u1") |})) as Hrun.
  { reflexivity. }
  split; [exact Hrun |].
  destruct (snapshot_only_from_complete_pipeline _ _ _ _ _ Hrun)
    as (c & payload & row & rows & Hc & Hjwt & _ & _ & _ & _ & _ & Hrows
        & Hload & _).
  exists c, payload, row, rows. repeat split; try assumption.
  apply Forall2_length in Hload. exact Hload.
Defined.

(** *** Reads and log lines of one request *)

Lemma reads_at_most_ret {A : Type} (a : A) : reads_at_most 0 (mret a : M A).
Proof.
  intros w w' r [= <- <-]. split; [reflexivity |].
  exists []. rewrite app_nil_r. split; [reflexivity | constructor].
Qed.

Lemma reads_at_most_raise {A : Type} (e : exn) : reads_at_most 0 (@raise A e).
Proof.
  intros w w' r [= <- <-]. split; [reflexivity |].
  exists []. rewrite app_nil_r. split; [reflexivity | constructor].
Qed.

Lemma reads_at_most_lift {A : Type} (x : string + A) : reads_at_most 0 (lift x).
Proof.
  destruct x; simpl; [apply reads_at_most_raise | apply reads_at_most_ret].
Qed.

Lemma reads_at_most_le {A : Type} (n k : nat) (m : M A) :
  (n <= k)%nat -> reads_at_most n m -> reads_at_most k m.
Proof.
  intros Hle Hm w w' r E. destruct (Hm w w' r E) as (Hlog & sent & Hs & Hlen).
  split; [exact Hlog |]. exists sent. split; [exact Hs | lia].
Qed.

Lemma reads_at_most_bind {A B : Type} (n k : nat) (m : M A) (f : A -> M B) :
  reads_at_most n m -> (forall a, reads_at_most k (f a)) ->
  reads_at_most (n + k) (m ≫= f).
Proof.
  intros Hm Hf w w' r. unfold mbind, M_bind.
  destruct (m w) as [w1 [a | e]] eqn:E.
  - intros E'. destruct (Hm _ _ _ E) as (Hlog & sent & Hs & Hlen).
    destruct (Hf a _ _ _ E') as (Hlog' & sent' & Hs' & Hlen').
    split; [congruence |]. exists (sent ++ sent')%list.
    rewrite Hs', Hs, <- app_assoc, length_app. split; [reflexivity | lia].
  - intros [= <- <-]. destruct (Hm _ _ _ E) as (Hlog & sent & Hs & Hlen).
    split; [exact Hlog |]. exists sent. split; [exact Hs | lia].
Qed.

Section PipelineEffects.
Context (ext : Services).

Lemma reads_at_most_load_memberships (rows : list Dict)
    (acc : list OrganizationMembership) :
  reads_at_most 0 (load_memberships ext acc rows).
Proof.
  revert acc. induction rows as [|item rows IH]; intros acc; simpl.
  - apply reads_at_most_ret.
  - apply (reads_at_most_bind 0 0); [| intros m; apply IH].
    intros w w' r E. rewrite (load_membership_world ext item w w) in E.
    injection E as <- _. split; [reflexivity |].
    exists []. rewrite app_nil_r. split; [reflexivity | constructor].
Qed.

Lemma reads_at_most_execute_user_profile (uid : Value) :
  reads_at_most 1 (execute_user_profile ext uid).
Proof.
  intros w w' r E. unfold execute_user_profile in E.
  destruct (reads_at_most_lift _ _ _ _ E) as (Hlog & sent & Hs & Hlen).
  simpl in Hlog, Hs. split; [exact Hlog |].
  exists ([SelectUserProfile uid] ++ sent)%list.
  rewrite Hs, <- app_assoc, length_app. split; [reflexivity | simpl; lia].
Qed.

Lemma reads_at_most_execute_memberships (uid : Value) :
  reads_at_most 1 (execute_memberships ext uid).
Proof.
  intros w w' r E. unfold execute_memberships in E.
  destruct (reads_at_most_lift _ _ _ _ E) as (Hlog & sent & Hs & Hlen).
  simpl in Hlog, Hs. split; [exact Hlog |].
  exists ([SelectMemberships uid] ++ sent)%list.
  rewrite Hs, <- app_assoc, length_app. split; [reflexivity | simpl; lia].
Qed.

Lemma reads_at_most_try (token : string) :
  reads_at_most 2 (get_current_user_try ext token).
Proof.
  unfold get_current_user_try.
  apply (reads_at_most_bind 0 2).
  { unfold decode_token. destruct (jwt_decode ext token) as [[] |];
      first [apply reads_at_most_raise | apply reads_at_most_ret]. }
  intros payload. apply (reads_at_most_bind 0 2).
  { unfold get_user_id. destruct (negb _);
      [apply reads_at_most_raise | apply reads_at_most_ret]. }
  intros uid. apply (reads_at_most_bind 0 2).
  { unfold get_user_email. destruct (negb _);
      [apply reads_at_most_raise | apply reads_at_most_ret]. }
  intros em. apply (reads_at_most_bind 1 1);
    [apply reads_at_most_execute_user_profile |].
  intros [row |];
    [| apply (reads_at_most_le 0); [lia | apply reads_at_most_raise]].
  destruct (negb _);
    [apply (reads_at_most_le 0); [lia | apply reads_at_most_raise] |].
  apply (reads_at_most_bind 0 1); [apply reads_at_most_lift |].
  intros prof. apply (reads_at_most_bind 1 0);
    [apply reads_at_most_execute_memberships |].
  intros rows. apply (reads_at_most_bind 0 0).
  { destruct (truthy _);
      [apply reads_at_most_load_memberships | apply reads_at_most_ret]. }
  intros ms. unfold new_UserContext.
  apply (reads_at_most_bind 0 0); [apply reads_at_most_lift |].
  intros [i e]. apply reads_at_most_ret.
Qed.

(** X4: One request sends at most two reads to the store and writes at most
    one line to the log; a line is written only together with the
    generic answer "Authentication failed", so never on success. *)
Theorem get_current_user_effects
    (creds : option HTTPAuthorizationCredentials) (w w' : World)
    (r : result UserContext) :
  get_current_user ext creds w = (w', r) ->
  exists (lines : list string) (sent : list StoreRead),
    log w' = (log w ++ lines)%list /\
    reads w' = (reads w ++ sent)%list /\
    (length lines <= 1)%nat /\ (length sent <= 2)%nat /\
    (lines <> [] ->
     r = Raised (HTTPException 401 "Authentication failed" None)).
Proof.
  destruct creds as [c |]; simpl.
  - unfold try_except.
    destruct (get_current_user_try ext (credentials c) w) as [w1 r1] eqn:E.
    destruct (reads_at_most_try _ _ _ _ E) as (Hlog & sent & Hs & Hlen).
    assert (forall x : result UserContext,
              (w1, x) = (w', r) ->
              exists (lines : list string) (sent : list StoreRead),
                log w' = (log w ++ lines)%list /\
                reads w' = (reads w ++ sent)%list /\
                (length lines <= 1)%nat /\ (length sent <= 2)%nat /\
                (lines <> [] ->
                 r = Raised (HTTPException 401 "Authentication failed" None)))
      as Hquiet.
    { intros x [= <- <-]. exists [], sent. rewrite app_nil_r.
      repeat split; try assumption; [simpl; lia | congruence]. }
    assert (forall line,
              ({| log := log w1 ++ [line]; reads := reads w1 |},
               @Raised UserContext
                 (HTTPException HTTP_401_UNAUTHORIZED "Authentication failed" None))
              = (w', r) ->
              exists (lines : list string) (sent : list StoreRead),
                log w' = (log w ++ lines)%list /\
                reads w' = (reads w ++ sent)%list /\
                (length lines <= 1)%nat /\ (length sent <= 2)%nat /\
                (lines <> [] ->
                 r = Raised (HTTPException 401 "Authentication failed" None)))
      as Hlogged.
    { intros line [= <- <-]. exists [line], sent. simpl. rewrite Hlog.
      repeat split; try assumption. lia. }
    destruct r1 as [ctx | e]; [apply Hquiet |].
    destruct e; first [apply Hquiet | apply Hlogged].
  - intros [= <- <-]. exists [], []. rewrite !app_nil_r.
    repeat split; try (simpl; lia). congruence.
Qed.

End PipelineEffects.

Lemma get_current_user_effects_witness :
  get_current_user (Sample.services Sample.two_rows) (Sample.bearer "stranger")
                   Sample.quiet
  = ({| log := []; reads := [SelectUserProfile (VStr "u7")] |},
     Raised (HTTPException 401 "User profile not found" None)) /\
  exists (lines : list string) (sent : list StoreRead),
    [] = (log Sample.quiet ++ lines)%list /\
    [SelectUserProfile (VStr "u7")] = (reads Sample.quiet ++ sent)%list /\
    (length lines <= 1)%nat /\ (length sent <= 2)%nat.
Proof.
  assert (get_current_user (Sample.services Sample.two_rows)
            (Sample.bearer "stranger") Sample.quiet
          = ({| log := []; reads := [SelectUserProfile (VStr "u7")] |},
             Raised (HTTPException 401 "User profile not found" None))) as Hrun.
  { reflexivity. }
  split; [exact Hrun |].
  destruct (get_current_user_effects _ _ _ _ _ Hrun)
    as (lines & sent & Hlog & Hreads & Hl & Hs & _).
  exists lines, sent. auto.
Defined.

(** *** Failures of the store and of its rows *)

Section PipelineFailures.
Context (ext : Services).

(** X5: When a read of the store raises -- the profile read, or the
    membership read after a good profile -- the caller gets the generic
    401 "Authentication failed"; the text of the store error goes to the
    log and to the log only. *)
Theorem store_failure_generic (c : HTTPAuthorizationCredentials)
    (payload : Dict) (msg : string) (w : World) :
  jwt_decode ext (credentials c) = inr payload ->
  truthy (dict_get payload "sub") = true ->
  truthy (dict_get payload "email") = true ->
  select_user_profile ext (dict_get payload "sub") = inl msg \/
  (exists row profile,
     select_user_profile ext (dict_get payload "sub") = inr (Some row) /\
     row <> ∅ /\ UserProfile_new ext row = inr profile /\
     select_memberships ext (dict_get payload "sub") = inl msg) ->
  exists w',
    get_current_user ext (Some c) w
    = (w', Raised (HTTPException 401 "Authentication failed" None)) /\
    log w' = (log w ++ ["Error in get_current_user: " +:+ msg])%list.
Proof.
  intros Hjwt Hsub Hemail [Hprofile | (row & prof & Hprofile & Hrow & Hvalid & Hrows)].
  - eexists. unfold get_current_user, try_except.
    rewrite (try_until_profile _ _ _ _ Hjwt Hsub Hemail), Hprofile.
    simpl. split; reflexivity.
  - eexists. unfold get_current_user, try_except.
    rewrite (try_until_profile _ _ _ _ Hjwt Hsub Hemail), Hprofile.
    apply truthy_VDict in Hrow.
    set (w1 := after_read w [SelectUserProfile (dict_get payload "sub")]).
    rewrite (bind_returned _ _ w1 w1 (Some row) eq_refl).
    cbv beta iota. rewrite Hrow. cbn [negb]. rewrite Hvalid.
    rewrite (bind_returned _ _ w1 w1 prof eq_refl).
    unfold execute_memberships at 1. unfold mbind at 1, M_bind at 1.
    rewrite Hrows. simpl. split; reflexivity.
Qed.

(** X6: A membership row that does not validate is not skipped: it refuses
    the whole request with the generic 401, however many rows before it
    were good, and the validation error goes to the log. *)
Theorem bad_membership_row_refuses (c : HTTPAuthorizationCredentials)
    (payload row : Dict) (profile : UserProfile)
    (good rest : list Dict) (bad : Dict)
    (ms : list OrganizationMembership) (msg : string) (w : World) :
  jwt_decode ext (credentials c) = inr payload ->
  truthy (dict_get payload "sub") = true ->
  truthy (dict_get payload "email") = true ->
  select_user_profile ext (dict_get payload "sub") = inr (Some row) ->
  row <> ∅ ->
  UserProfile_new ext row = inr profile ->
  select_memberships ext (dict_get payload "sub")
  = inr (good ++ bad :: rest)%list ->
  Forall2 (fun item m => forall w, load_membership ext item w = (w, Returned m))
          good ms ->
  OrganizationMembership_new ext (delete "organization" bad) = inl msg ->
  get_current_user ext (Some c) w
  = (after_log (after_read w [SelectUserProfile (dict_get payload "sub");
                              SelectMemberships (dict_get payload "sub")])
               ("Error in get_current_user: " +:+ msg),
     Raised (HTTPException 401 "Authentication failed" None)).
Proof.
  intros Hjwt Hsub Hemail Hprofile Hrow Hvalid Hrows Hgood Hbad.
  apply truthy_VDict in Hrow.
  set (w1 := after_read w [SelectUserProfile (dict_get payload "sub")]).
  set (w2 := after_read w [SelectUserProfile (dict_get payload "sub");
                           SelectMemberships (dict_get payload "sub")]).
  assert (execute_memberships ext (dict_get payload "sub") w1
          = (w2, Returned (good ++ bad :: rest)%list)) as Hfetch.
  { unfold execute_memberships. rewrite Hrows. subst w1 w2.
    unfold after_read. simpl. rewrite <- app_assoc. reflexivity. }
  assert (load_membership ext bad w2 = (w2, Raised (Exception msg))) as Hload.
  { unfold load_membership, dict_pop. rewrite Hbad. reflexivity. }
  assert ((if truthy (VList (VDict <$> (good ++ bad :: rest)%list))
           then load_memberships ext [] (good ++ bad :: rest)%list
           else mret []) w2
          = (w2, Raised (Exception msg))) as Hloop.
  { assert (truthy (VList (VDict <$> (good ++ bad :: rest)%list)) = true) as ->.
    { destruct good; reflexivity. }
    apply (load_memberships_raised ext good rest bad ms []); assumption. }
  assert (get_current_user_try ext (credentials c) w
          = (w2, Raised (Exception msg))) as Htry.
  { rewrite (try_until_profile _ _ _ _ Hjwt Hsub Hemail), Hprofile. fold w1.
    rewrite (bind_returned _ _ w1 w1 (Some row) eq_refl).
    cbv beta iota. rewrite Hrow. cbn [negb]. rewrite Hvalid.
    rewrite (bind_returned _ _ w1 w1 profile eq_refl).
    rewrite (bind_returned _ _ w1 w2 _ Hfetch).
    rewrite (bind_raised _ _ w2 w2 _ Hloop). reflexivity. }
  unfold get_current_user, try_except. rewrite Htry. reflexivity.
Qed.

End PipelineFailures.

Lemma sample_decode_no_http (rows : list Dict) (token : string)
    (status : Z) (detail : string) (headers : option (gmap string string)) :
  jwt_decode (Sample.services rows) token
  <> inl (HTTPException status detail headers).
Proof.
  simpl. unfold Sample.decode.
  repeat (destruct (String.eqb token _); [discriminate |]). discriminate.
Qed.

Lemma get_current_user_raises_401_witness :
  (forall token status detail headers,
     jwt_decode (Sample.services Sample.two_rows) token
     <> inl (HTTPException status detail headers)) /\
  get_current_user (Sample.services Sample.two_rows) (Sample.bearer "forged")
                   Sample.quiet
  = (Sample.quiet,
     Raised (HTTPException 401 "Invalid authentication token" www_authenticate)) /\
  exists detail headers,
    HTTPException 401 "Invalid authentication token" www_authenticate
    = HTTPException 401 detail headers.
Proof.
  assert (get_current_user (Sample.services Sample.two_rows)
            (Sample.bearer "forged") Sample.quiet
          = (Sample.quiet,
             Raised (HTTPException 401 "Invalid authentication token"
                                   www_authenticate))) as Hrun.
  { reflexivity. }
  split; [exact (sample_decode_no_http Sample.two_rows) |].
  split; [exact Hrun |].
  exact (get_current_user_raises_401 (Sample.services Sample.two_rows)
           (sample_decode_no_http Sample.two_rows) _ _ _ _ Hrun).
Defined.

Lemma store_failure_generic_witness :
  jwt_decode Demo.store_down (credentials (Sample.creds "good"))
  = inr (Sample.claims (VStr "u1")) /\
  select_user_profile Demo.store_down (dict_get (Sample.claims (VStr "u1")) "sub")
  = inl "connection refused" /\
  exists w',
    get_current_user Demo.store_down (Sample.bearer "good") Sample.quiet
    = (w', Raised (HTTPException 401 "Authentication failed" None)) /\
    log w' = ["Error in get_current_user: connection refused"].
Proof.
  split; [reflexivity |]. split; [reflexivity |].
  exact (store_failure_generic Demo.store_down (Sample.creds "good")
           (Sample.claims (VStr "u1")) "connection refused" Sample.quiet
           eq_refl eq_refl eq_refl (or_introl eq_refl)).
Defined.

Lemma bad_membership_row_refuses_witness :
  select_memberships
    (Sample.services (Sample.two_rows ++ [Demo.wizard_row]))
    (dict_get (Sample.claims (VStr "u1")) "sub")
  = inr (Sample.two_rows ++ Demo.wizard_row :: [])%list /\
  OrganizationMembership_new
    (Sample.services (Sample.two_rows ++ [Demo.wizard_row]))
    (delete "organization" Demo.wizard_row)
  = inl "role: Input should be a member of UserRole" /\
  get_current_user (Sample.services (Sample.two_rows ++ [Demo.wizard_row]))
                   (Sample.bearer "good") Sample.quiet
  = ({| log := ["Error in get_current_user: role: Input should be a member of UserRole"];
        reads := [SelectUserProfile (VStr "u1"); SelectMemberships (VStr "u1")] |},
     Raised (HTTPException 401 "Authentication failed" None)).
Proof.
  assert (Sample.profile_row <> ∅) as Hrow.
  { intros H. apply (f_equal (fun d : Dict => d !! "id")) in H.
    discriminate H. }
  assert (Forall2 (fun item m =>
             forall w,
               load_membership
                 (Sample.services (Sample.two_rows ++ [Demo.wizard_row])) item w
               = (w, Returned m))
          Sample.two_rows [Sample.owner_o1; Sample.admin_o9]) as Hgood.
  { repeat constructor. }
  split; [reflexivity |]. split; [reflexivity |].
  exact (bad_membership_row_refuses
           (Sample.services (Sample.two_rows ++ [Demo.wizard_row]))
           (Sample.creds "good") (Sample.claims (VStr "u1")) Sample.profile_row
           Sample.u1_profile Sample.two_rows [] Demo.wizard_row
           [Sample.owner_o1; Sample.admin_o9]
           "role: Input should be a member of UserRole" Sample.quiet
           eq_refl eq_refl eq_refl eq_refl Hrow eq_refl eq_refl Hgood eq_refl).
Defined.

(** ** The route handlers *)

Lemma hbind_returned {A B : Type} (m : H A) (f : A -> H B) (t t' : Trace) (a : A) :
  m t = (t', Returned a) -> (m ≫= f) t = f a t'.
Proof. intros E. unfold mbind, H_bind. rewrite E. reflexivity. Qed.

Lemma hbind_raised {A B : Type} (m : H A) (f : A -> H B) (t t' : Trace) (e : exn) :
  m t = (t', Raised e) -> (m ≫= f) t = (t', Raised e).
Proof. intros E. unfold mbind, H_bind. rewrite E. reflexivity. Qed.

Lemma hbind_inv_returned {A B : Type} (m : H A) (f : A -> H B)
    (t t' : Trace) (b : B) :
  (m ≫= f) t = (t', Returned b) ->
  exists t1 a, m t = (t1, Returned a) /\ f a t1 = (t', Returned b).
Proof.
  unfold mbind, H_bind. destruct (m t) as [t1 [a | e]]; [eauto | discriminate].
Qed.

Lemma hbind_inv_raised {A B : Type} (m : H A) (f : A -> H B)
    (t t' : Trace) (e : exn) :
  (m ≫= f) t = (t', Raised e) ->
  m t = (t', Raised e) \/
  exists t1 a, m t = (t1, Returned a) /\ f a t1 = (t', Raised e).
Proof.
  unfold mbind, H_bind. destruct (m t) as [t1 [a | e1]]; [eauto |].
  intros [= <- <-]. auto.
Qed.

Lemma fails_only_bind {A B : Type} (P : exn -> Prop) (m : H A) (f : A -> H B) :
  fails_only P m -> (forall a, fails_only P (f a)) -> fails_only P (m ≫= f).
Proof.
  intros Hm Hf t t' e E. apply hbind_inv_raised in E as [E | (t1 & a & _ & E)].
  - exact (Hm _ _ _ E).
  - exact (Hf a _ _ _ E).
Qed.

Lemma fails_only_ret {A : Type} (P : exn -> Prop) (a : A) :
  fails_only P (mret a : H A).
Proof. intros t t' e. discriminate. Qed.

Lemma fails_only_fail {A : Type} (P : exn -> Prop) (e : exn) :
  P e -> fails_only P (@fail A e).
Proof. intros He t t' e' [= <- <-]. exact He. Qed.

Lemma fails_only_outcome {A : Type} (P : exn -> Prop) (r : string + A) :
  (forall msg, P (Exception msg)) -> fails_only P (outcome r).
Proof.
  intros HP. destruct r as [msg | a]; simpl.
  - apply fails_only_fail, HP.
  - apply fails_only_ret.
Qed.

Lemma send_inv (backend : Backend) (c : StoreCall) (t t' : Trace)
    (r : result APIResponse) :
  send backend c t = (t', r) ->
  t' = after_calls t [c] /\
  match r with
  | Returned response => execute backend c = inr response
  | Raised e => exists msg, execute backend c = inl msg /\ e = Exception msg
  end.
Proof.
  unfold send. destruct (execute backend c) as [msg | response]; simpl.
  - intros [= <- <-]. split; [reflexivity | eauto].
  - intros [= <- <-]. split; reflexivity.
Qed.

(** *** The access check *)


(** The level an admin needs, by role. *)
Lemma admin_level (r : UserRole) :
  (role_level r >=? role_level ORGANIZATION_ADMIN) = true <->
  r = ORGANIZATION_ADMIN \/ r = ORGANIZATION_OWNER \/ platform_role r.
Proof.
  unfold platform_role. destruct r; vm_compute; split; intros K; auto 6;
    try discriminate K.
  all: destruct K as [K | [K | [K | [K | K]]]]; discriminate K.
Qed.

Lemma check_access_allowed (self : UserContext) (org : string) (t : Trace) :
  may_manage self org -> check_access org self t = (t, Returned tt).
Proof.
  intros [Hsaas | (m & Hget & Hrole)]; unfold check_access.
  - apply has_saas_role_true in Hsaas. rewrite Hsaas. reflexivity.
  - destruct (has_saas_role self); [reflexivity |]. simpl.
    unfold has_minimum_role_in_organization. rewrite Hget. simpl.
    assert ((role_level (role m) >=? role_level ORGANIZATION_ADMIN) = true) as ->.
    { apply admin_level. tauto. }
    reflexivity.
Qed.

Lemma check_access_denied (self : UserContext) (org : string) (t : Trace) :
  ~ may_manage self org ->
  check_access org self t = (t, Raised (HTTPException 403 "Access denied" None)).
Proof.
  intros Hnot. unfold check_access.
  destruct (has_saas_role self) eqn:Hsaas.
  { destruct Hnot. left. apply has_saas_role_true. exact Hsaas. }
  simpl. unfold has_minimum_role_in_organization.
  destruct (get_membership_for_organization self org) as [m |] eqn:Hget;
    [| reflexivity].
  simpl.
  destruct (role_level (role m) >=? role_level ORGANIZATION_ADMIN) eqn:Hlevel;
    [| reflexivity].
  destruct Hnot. apply admin_level in Hlevel as [Hr | [Hr | Hr]].
  - right. eauto.
  - right. eauto.
  - left. exists m. split; [| exact Hr].
    apply get_membership_Some in Hget as [Hin _]. exact Hin.
Qed.

Lemma check_access_inv (self : UserContext) (org : string) (t t' : Trace)
    (r : result unit) :
  check_access org self t = (t', r) ->
  t' = t /\
  ((may_manage self org /\ r = Returned tt) \/
   (~ may_manage self org /\
    r = Raised (HTTPException 403 "Access denied" None))).
Proof.
  intros E.
  assert (may_manage self org \/ ~ may_manage self org) as [Hyes | Hno].
  { destruct (check_access org self t) as [t1 [[] | e]] eqn:E1.
    - left. unfold check_access in E1.
      destruct (has_saas_role self) eqn:Hsaas.
      + left. apply has_saas_role_true. exact Hsaas.
      + simpl in E1. unfold has_minimum_role_in_organization in E1.
        destruct (get_membership_for_organization self org) as [m |] eqn:Hget;
          [| discriminate].
        simpl in E1.
        destruct (role_level (role m) >=? role_level ORGANIZATION_ADMIN)
          eqn:Hlevel; [| discriminate].
        apply admin_level in Hlevel as [Hr | [Hr | Hr]].
        * right. eauto.
        * right. eauto.
        * left. exists m. split; [| exact Hr].
          apply get_membership_Some in Hget as [Hin _]. exact Hin.
    - right. intros Hyes.
      rewrite (check_access_allowed _ _ t Hyes) in E1. discriminate. }
  - rewrite (check_access_allowed _ _ t Hyes) in E.
    injection E as <- <-. auto.
  - rewrite (check_access_denied _ _ t Hno) in E.
    injection E as <- <-. auto.
Qed.

Lemma hbind_inv {A B : Type} (m : H A) (f : A -> H B) (t t' : Trace)
    (r : result B) :
  (m ≫= f) t = (t', r) ->
  (exists e, m t = (t', Raised e) /\ r = Raised e) \/
  (exists t1 a, m t = (t1, Returned a) /\ f a t1 = (t', r)).
Proof.
  unfold mbind, H_bind. destruct (m t) as [t1 [a | e]]; [eauto |].
  intros [= <- <-]. eauto.
Qed.

Lemma silent_bind {A B : Type} (m : H A) (f : A -> H B) :
  silent m -> (forall a, silent (f a)) -> silent (m ≫= f).
Proof.
  intros Hm Hf t t' r E.
  apply hbind_inv in E as [(e & E & _) | (t1 & a & E & E')].
  - exact (Hm _ _ _ E).
  - rewrite <- (Hm _ _ _ E). exact (Hf a _ _ _ E').
Qed.

Lemma silent_ret {A : Type} (a : A) : silent (mret a : H A).
Proof. intros t t' r [= <- _]. reflexivity. Qed.

Lemma silent_fail {A : Type} (e : exn) : silent (@fail A e).
Proof. intros t t' r [= <- _]. reflexivity. Qed.

Lemma silent_outcome {A : Type} (r : string + A) : silent (outcome r).
Proof. destruct r; simpl; [apply silent_fail | apply silent_ret]. Qed.

Section RoutesProofs.
Context (ext : Services) (backend : Backend).

(** *** The list of members *)

Lemma load_member_silent (item : Dict) : silent (load_member backend item).
Proof.
  unfold load_member, dict_pop. destruct (truthy _); [| apply silent_ret].
  apply silent_bind; [apply silent_outcome |]. intros p. apply silent_ret.
Qed.

Lemma load_member_fails_bare (item : Dict) :
  fails_only bare (load_member backend item).
Proof.
  unfold load_member, dict_pop. destruct (truthy _); [| apply fails_only_ret].
  apply fails_only_bind; [apply fails_only_outcome; intros; exact I |].
  intros p. apply fails_only_ret.
Qed.

Lemma member_get_other (row : Dict) (p : option UserProfile) (item : Dict)
    (key : string) :
  row = delete "user_profile" item -> key <> "user_profile" ->
  member_get {| member_row := row; member_user_profile := p |} key
  = inl <$> item !! key.
Proof.
  intros -> Hkey. unfold member_get. simpl.
  apply String.eqb_neq in Hkey. rewrite Hkey.
  rewrite lookup_delete_ne; [reflexivity |].
  apply String.eqb_neq in Hkey. congruence.
Qed.

Lemma load_member_of_row (item : Dict) (t t' : Trace) (member : Member) :
  load_member backend item t = (t', Returned member) ->
  member_of_row backend item member.
Proof.
  unfold load_member, dict_pop, member_of_row.
  destruct (truthy (default (VDict ∅) (item !! "user_profile"))).
  - intros E. apply hbind_inv_returned in E as (t1 & p & Hp & E).
    injection E as _ <-. split.
    + intros key Hkey. apply member_get_other; [reflexivity | exact Hkey].
    + exists p. split; [| reflexivity].
      destruct (UserProfile_of backend _) as [msg | p']; [discriminate |].
      injection Hp as _ ->. reflexivity.
  - intros [= _ <-]. split; [| reflexivity].
    intros key Hkey. apply member_get_other; [reflexivity | exact Hkey].
Qed.

Lemma load_members_silent (data : list Dict) (acc : list Member) :
  silent (load_members backend acc data).
Proof.
  revert acc. induction data as [|item data IH]; intros acc; simpl.
  - apply silent_ret.
  - apply silent_bind; [apply load_member_silent | intros m; apply IH].
Qed.

Lemma load_members_fails_bare (data : list Dict) (acc : list Member) :
  fails_only bare (load_members backend acc data).
Proof.
  revert acc. induction data as [|item data IH]; intros acc; simpl.
  - apply fails_only_ret.
  - apply fails_only_bind; [apply load_member_fails_bare | intros m; apply IH].
Qed.

Lemma load_members_inv (data : list Dict) (acc members : list Member)
    (t t' : Trace) :
  load_members backend acc data t = (t', Returned members) ->
  exists loaded : list Member,
    members = (acc ++ loaded)%list /\
    Forall2 (member_of_row backend) data loaded.
Proof.
  revert acc t. induction data as [|item data IH]; intros acc t; simpl.
  - intros [= _ <-]. exists []. rewrite app_nil_r.
    split; [reflexivity | constructor].
  - intros E. apply hbind_inv_returned in E as (t1 & m & Hm & E).
    apply IH in E as (loaded & -> & Hall).
    exists (m :: loaded). rewrite <- app_assoc.
    split; [reflexivity |].
    constructor; [| exact Hall]. exact (load_member_of_row _ _ _ _ Hm).
Qed.

(** X7: Who gets the list of members.  A caller who may manage the
    organization has the one query sent and gets no HTTP error from the
    handler; any other caller is refused with 403 "Access denied" before
    anything is sent. *)
Theorem members_access (org : string) (self : UserContext) (t : Trace) :
  (may_manage self org ->
   exists r,
     get_organization_members backend org self t
     = (after_calls t [SelectOrganizationMembers org], r) /\
     forall status detail headers,
       r <> Raised (HTTPException status detail headers)) /\
  (~ may_manage self org ->
   get_organization_members backend org self t
   = (t, Raised (HTTPException 403 "Access denied" None))).
Proof.
  split; intros Hmay; unfold get_organization_members.
  - rewrite (hbind_returned _ _ t t tt (check_access_allowed _ _ _ Hmay)).
    destruct (send backend (SelectOrganizationMembers org) t) as [t1 r1] eqn:E.
    destruct (send_inv _ _ _ _ _ E) as [-> Hr1].
    destruct r1 as [response | e].
    + rewrite (hbind_returned _ _ _ _ _ E).
      destruct (response_data response) as [|item data] eqn:Hdata.
      * eexists. split; [reflexivity | discriminate].
      * destruct (load_members backend [] (item :: data)
                    (after_calls t [SelectOrganizationMembers org]))
          as [t2 r2] eqn:E2.
        rewrite (load_members_silent _ _ _ _ _ E2).
        exists r2. split; [reflexivity |].
        intros status detail headers ->.
        exact (load_members_fails_bare _ _ _ _ _ E2).
    + rewrite (hbind_raised _ _ _ _ _ E).
      eexists. split; [reflexivity |].
      destruct Hr1 as (msg & _ & ->). discriminate.
  - apply hbind_raised. apply check_access_denied. exact Hmay.
Qed.

(** X8: A list of members is returned only to a caller who may manage the
    organization.  It has one dictionary for each row of the store's
    answer, in the order of the rows: the keys of the row other than
    "user_profile" with their values, and "user_profile" bound to the
    profile validated from the embedded one when the row embeds a
    truthy one, absent otherwise. *)
Theorem members_listing_sound (org : string) (self : UserContext)
    (t t' : Trace) (members : list Member) :
  get_organization_members backend org self t = (t', Returned members) ->
  may_manage self org /\
  exists response,
    execute backend (SelectOrganizationMembers org) = inr response /\
    Forall2 (member_of_row backend) (response_data response) members.
Proof.
  unfold get_organization_members. intros E.
  apply hbind_inv_returned in E as (t1 & [] & Hcheck & E).
  apply check_access_inv in Hcheck as [-> [[Hmay _] | [_ Hno]]];
    [| discriminate].
  split; [exact Hmay |].
  apply hbind_inv_returned in E as (t2 & response & Hsend & E).
  apply send_inv in Hsend as [-> Hresponse].
  exists response. split; [exact Hresponse |].
  destruct (response_data response) as [|item data].
  - injection E as _ <-. constructor.
  - apply load_members_inv in E as (loaded & -> & Hall). exact Hall.
Qed.

End RoutesProofs.

Lemma owner_may_manage : may_manage Demo.owner_only "o1".
Proof. right. exists Sample.owner_o1. split; [reflexivity | auto]. Qed.

Lemma plain_user_may_not_manage : ~ may_manage Demo.plain_user "o1".
Proof.
  intros [(m & Hin & Hrole) | (m & Hget & Hrole)].
  - apply list_elem_of_singleton in Hin. subst m.
    destruct Hrole as [K | [K | K]]; discriminate K.
  - injection Hget as <-. destruct Hrole as [K | K]; discriminate K.
Qed.

Lemma members_access_witness :
  may_manage Demo.owner_only "o1" /\
  ~ may_manage Demo.plain_user "o1" /\
  (exists r,
     get_organization_members (Demo.backend (Demo.rows [])) "o1"
       Demo.owner_only Demo.idle
     = (after_calls Demo.idle [SelectOrganizationMembers "o1"], r) /\
     forall status detail headers,
       r <> Raised (HTTPException status detail headers)) /\
  get_organization_members (Demo.backend (Demo.rows [])) "o1"
    Demo.plain_user Demo.idle
  = (Demo.idle, Raised (HTTPException 403 "Access denied" None)).
Proof.
  split; [exact owner_may_manage |].
  split; [exact plain_user_may_not_manage |].
  split.
  - exact (proj1 (members_access (Demo.backend (Demo.rows [])) "o1"
                    Demo.owner_only Demo.idle) owner_may_manage).
  - exact (proj2 (members_access (Demo.backend (Demo.rows [])) "o1"
                    Demo.plain_user Demo.idle) plain_user_may_not_manage).
Defined.

Lemma members_listing_sound_witness :
  get_organization_members (Demo.backend (Demo.rows [])) "o1"
    Demo.owner_only Demo.idle
  = (after_calls Demo.idle [SelectOrganizationMembers "o1"],
     Returned [{| member_row := delete "user_profile" Demo.member_item;
                  member_user_profile := Some Sample.u1_profile |}]) /\
  may_manage Demo.owner_only "o1" /\
  member_get {| member_row := delete "user_profile" Demo.member_item;
                member_user_profile := Some Sample.u1_profile |} "user_profile"
  = Some (inr Sample.u1_profile) /\
  exists response,
    execute (Demo.backend (Demo.rows [])) (SelectOrganizationMembers "o1")
    = inr response /\
    length (response_data response) = 1%nat.
Proof.
  assert (get_organization_members (Demo.backend (Demo.rows [])) "o1"
            Demo.owner_only Demo.idle
          = (after_calls Demo.idle [SelectOrganizationMembers "o1"],
             Returned [{| member_row := delete "user_profile" Demo.member_item;
                          member_user_profile := Some Sample.u1_profile |}]))
    as Hrun.
  { reflexivity. }
  destruct (members_listing_sound (Demo.backend (Demo.rows [])) _ _ _ _ _ Hrun)
    as (Hmay & response & Hresponse & Hrows).
  split; [exact Hrun |]. split; [exact Hmay |]. split; [reflexivity |].
  exists response. split; [exact Hresponse |].
  apply Forall2_length in Hrows. exact Hrows.
Defined.

(** *** Invitations *)

Section InviteProofs.
Context (backend : Backend).

(** X9: A caller who may not manage the organization cannot invite: the
    answer is 403 "Access denied", nothing is sent to the backend and
    nothing is logged. *)
Theorem invite_denied (org : string) (request : InviteUserRequest)
    (self : UserContext) (t : Trace) :
  ~ may_manage self org ->
  invite_user_to_organization backend org request self t
  = (t, Raised (HTTPException 403 "Access denied" None)).
Proof.
  intros Hno. unfold invite_user_to_organization.
  apply hbind_raised, check_access_denied. exact Hno.
Qed.

Lemma subscript_inv (d : Dict) (key : string) (t t' : Trace) (r : result Value) :
  subscript d key t = (t', r) ->
  t' = t /\
  match r with
  | Returned v => d !! key = Some v
  | Raised e => bare e
  end.
Proof.
  unfold subscript. destruct (d !! key); intros [= <- <-]; split;
    reflexivity || exact I.
Qed.



(** X11: An invitation that goes through inserts one membership row with the
    role of the request as it came -- no role is out of reach of an
    inviter who may manage the organization, platform roles included --
    for the user found by email, with the caller as inviter; it sends
    the two lookups and the insertion, in this order. *)
Theorem invite_grants_requested_role (org : string)
    (request : InviteUserRequest) (self : UserContext) (t : Trace)
    (found_users inserted : APIResponse) (found : Dict) (others : list Dict)
    (uid : Value) (no_membership : APIResponse) :
  may_manage self org ->
  execute backend (SelectProfileByEmail (invite_email request))
  = inr found_users ->
  response_data found_users = found :: others ->
  found !! "id" = Some uid ->
  execute backend (SelectMembership uid org) = inr no_membership ->
  response_data no_membership = [] ->
  execute backend
    (InsertMembership
       (membership_row uid org (UserRole_value (invite_role request)) (id self)
          (VStr (utcnow_isoformat backend (clock t)))
          (VStr (utcnow_isoformat backend (S (clock t))))))
  = inr inserted ->
  invite_user_to_organization backend org request self t
  = ({| errors := errors t;
        calls := calls t ++
          [SelectProfileByEmail (invite_email request);
           SelectMembership uid org;
           InsertMembership
             (membership_row uid org (UserRole_value (invite_role request))
                (id self)
                (VStr (utcnow_isoformat backend (clock t)))
                (VStr (utcnow_isoformat backend (S (clock t)))))];
        clock := S (S (clock t)) |},
     Returned (<["message" := VStr "User invited successfully"]> ∅)).
Proof.
  intros Hmay Husers Hfound Hid Hnone Hempty Hinsert.
  unfold invite_user_to_organization.
  rewrite (hbind_returned _ _ t t tt (check_access_allowed _ _ _ Hmay)).
  unfold attempt.
  set (t1 := after_calls t [SelectProfileByEmail (invite_email request)]).
  assert (send backend (SelectProfileByEmail (invite_email request)) t
          = (t1, Returned found_users)) as E1.
  { unfold send. rewrite Husers. reflexivity. }
  rewrite (hbind_returned _ _ _ _ _ E1), Hfound.
  assert (subscript found "id" t1 = (t1, Returned uid)) as E2.
  { unfold subscript. rewrite Hid. reflexivity. }
  rewrite (hbind_returned _ _ _ _ _ E2).
  set (t2 := after_calls t1 [SelectMembership uid org]).
  assert (send backend (SelectMembership uid org) t1
          = (t2, Returned no_membership)) as E3.
  { unfold send. rewrite Hnone. reflexivity. }
  rewrite (hbind_returned _ _ _ _ _ E3), Hempty.
  set (t3 := {| errors := errors t2; calls := calls t2; clock := S (clock t2) |}).
  rewrite (hbind_returned (utcnow backend) _ t2 t3
             (VStr (utcnow_isoformat backend (clock t))) eq_refl).
  set (t4 := {| errors := errors t3; calls := calls t3; clock := S (clock t3) |}).
  rewrite (hbind_returned (utcnow backend) _ t3 t4
             (VStr (utcnow_isoformat backend (S (clock t)))) eq_refl).
  unfold send at 1. unfold mbind at 1, H_bind at 1. rewrite Hinsert.
  subst t4 t3 t2 t1. unfold after_calls. simpl.
  rewrite <- !app_assoc. reflexivity.
Qed.

(** X12: A membership row is inserted by an invitation only if the caller may
    manage the organization, the invited email belongs to a user and the
    store holds no membership row -- active or not -- of that user in
    the organization; the row is then the one of the request. *)
Theorem invite_inserts_only_new_members (org : string)
    (request : InviteUserRequest) (self : UserContext) (t t' : Trace)
    (r : result Dict) (row : Dict) :
  invite_user_to_organization backend org request self t = (t', r) ->
  InsertMembership row ∈ calls t' ->
  InsertMembership row ∈ calls t \/
  (may_manage self org /\
   exists (found_users no_membership : APIResponse) (found : Dict)
          (others : list Dict) (uid : Value),
     execute backend (SelectProfileByEmail (invite_email request))
     = inr found_users /\
     response_data found_users = found :: others /\
     found !! "id" = Some uid /\
     execute backend (SelectMembership uid org) = inr no_membership /\
     response_data no_membership = [] /\
     row = membership_row uid org (UserRole_value (invite_role request))
             (id self)
             (VStr (utcnow_isoformat backend (clock t)))
             (VStr (utcnow_isoformat backend (S (clock t))))).
Proof.
  unfold invite_user_to_organization. fold (invite_try backend org request self).
  intros E Hin.
  apply hbind_inv in E as [(e & E & _) | (t0 & [] & Hcheck & E)].
  { apply check_access_inv in E as [-> _]. left. exact Hin. }
  apply check_access_inv in Hcheck as [-> [[Hmay _] | [_ K]]];
    [| discriminate].
  unfold attempt in E.
  destruct (invite_try backend org request self t) as [t1 r1] eqn:B.
  assert (calls t' = calls t1) as Hcalls.
  { destruct r1 as [d | []]; injection E as <- _; reflexivity. }
  rewrite Hcalls in Hin. clear E Hcalls.
  unfold invite_try in B.
  assert (forall (sent : list StoreCall),
            Forall (fun c => forall x, c <> InsertMembership x) sent ->
            InsertMembership row ∈ (calls t ++ sent)%list ->
            InsertMembership row ∈ calls t) as Hskip.
  { intros sent Hsent K. apply elem_of_app in K as [K | K]; [exact K |].
    rewrite Forall_forall in Hsent. destruct (Hsent _ K row eq_refl). }
  apply hbind_inv in B as [(e & B & _) | (ta & found_users & B1 & B)].
  { apply send_inv in B as [-> _]. left. simpl in Hin.
    apply Hskip in Hin; [exact Hin | repeat constructor; discriminate]. }
  apply send_inv in B1 as [-> Husers].
  destruct (response_data found_users) as [|found others] eqn:Hfound.
  { injection B as <- _. left. simpl in Hin.
    apply Hskip in Hin; [exact Hin | repeat constructor; discriminate]. }
  apply hbind_inv in B as [(e & B & _) | (tb & uid & B2 & B)].
  { apply subscript_inv in B as [-> _]. left. simpl in Hin.
    apply Hskip in Hin; [exact Hin | repeat constructor; discriminate]. }
  apply subscript_inv in B2 as [-> Hid].
  apply hbind_inv in B as [(e & B & _) | (tc & no_membership & B3 & B)].
  { apply send_inv in B as [-> _]. left. simpl in Hin.
    rewrite <- app_assoc in Hin.
    apply Hskip in Hin; [exact Hin | repeat constructor; discriminate]. }
  apply send_inv in B3 as [-> Hnone].
  destruct (response_data no_membership) as [|m ms] eqn:Hempty.
  2: { injection B as <- _. left. simpl in Hin. rewrite <- app_assoc in Hin.
       apply Hskip in Hin; [exact Hin | repeat constructor; discriminate]. }
  apply hbind_inv in B as [(e & B & _) | (td & at1 & B4 & B)];
    [discriminate |].
  injection B4 as <- <-.
  apply hbind_inv in B as [(e & B & _) | (te & at2 & B5 & B)];
    [discriminate |].
  injection B5 as <- <-. simpl in B.
  assert (t1 = after_calls
                 {| errors := errors t;
                    calls := (calls t ++ [SelectProfileByEmail (invite_email request)])
                             ++ [SelectMembership uid org];
                    clock := S (S (clock t)) |}
                 [InsertMembership
                    (membership_row uid org
                       (UserRole_value (invite_role request)) (id self)
                       (VStr (utcnow_isoformat backend (clock t)))
                       (VStr (utcnow_isoformat backend (S (clock t)))))])
    as ->.
  { apply hbind_inv in B as [(e & B & _) | (tf & x & B6 & B)].
    - apply send_inv in B as [-> _]. reflexivity.
    - apply send_inv in B6 as [-> _]. injection B as <- _. reflexivity. }
  simpl in Hin. rewrite <- !app_assoc in Hin. simpl in Hin.
  apply elem_of_app in Hin as [Hin | Hin]; [left; exact Hin |].
  right. split; [exact Hmay |].
  exists found_users, no_membership, found, others, uid.
  repeat split; try assumption.
  apply elem_of_cons in Hin as [Hin | Hin]; [discriminate Hin |].
  apply elem_of_cons in Hin as [Hin | Hin]; [discriminate Hin |].
  apply list_elem_of_singleton in Hin. injection Hin as ->. reflexivity.
Qed.

End InviteProofs.

Lemma invite_denied_witness :
  ~ may_manage Demo.plain_user "o1" /\
  invite_user_to_organization (Demo.backend (Demo.rows [])) "o1"
    (Demo.invite "u2@x.com" ORGANIZATION_USER) Demo.plain_user Demo.idle
  = (Demo.idle, Raised (HTTPException 403 "Access denied" None)).
Proof.
  split; [exact plain_user_may_not_manage |].
  exact (invite_denied (Demo.backend (Demo.rows [])) "o1"
           (Demo.invite "u2@x.com" ORGANIZATION_USER) Demo.plain_user Demo.idle
           plain_user_may_not_manage).
Defined.


(** An owner of "o1" makes "u2" a platform super admin. *)
Lemma invite_grants_requested_role_witness :
  may_manage Demo.owner_only "o1" /\
  invite_user_to_organization (Demo.backend (Demo.rows [])) "o1"
    (Demo.invite "u2@x.com" SAAS_SUPER_ADMIN) Demo.owner_only Demo.idle
  = ({| errors := [];
        calls := [SelectProfileByEmail "u2@x.com";
                  SelectMembership (VStr "u2") "o1";
                  InsertMembership
                    (membership_row (VStr "u2") "o1" "saas_super_admin" "u1"
                       (VStr "2024-01-01T00:00:00")
                       (VStr "2024-01-01T00:00:01"))];
        clock := 2 |},
     Returned (<["message" := VStr "User invited successfully"]> ∅)).
Proof.
  split; [exact owner_may_manage |].
  exact (invite_grants_requested_role (Demo.backend (Demo.rows [])) "o1"
           (Demo.invite "u2@x.com" SAAS_SUPER_ADMIN) Demo.owner_only Demo.idle
           {| response_data := [<["id" := VStr "u2"]> ∅]; response_count := None |}
           {| response_data := []; response_count := None |}
           (<["id" := VStr "u2"]> ∅) [] (VStr "u2")
           {| response_data := []; response_count := None |}
           owner_may_manage eq_refl eq_refl eq_refl eq_refl eq_refl eq_refl).
Defined.

Lemma invite_inserts_only_new_members_witness :
  invite_user_to_organization (Demo.backend (Demo.rows [])) "o1"
    (Demo.invite "u2@x.com" ORGANIZATION_USER) Demo.owner_only Demo.idle
  = ({| errors := [];
        calls := [SelectProfileByEmail "u2@x.com";
                  SelectMembership (VStr "u2") "o1";
                  InsertMembership
                    (membership_row (VStr "u2") "o1" "organization_user" "u1"
                       (VStr "2024-01-01T00:00:00")
                       (VStr "2024-01-01T00:00:01"))];
        clock := 2 |},
     Returned (<["message" := VStr "User invited successfully"]> ∅)) /\
  (InsertMembership
     (membership_row (VStr "u2") "o1" "organization_user" "u1"
        (VStr "2024-01-01T00:00:00") (VStr "2024-01-01T00:00:01"))
   ∈ calls Demo.idle \/
   may_manage Demo.owner_only "o1").
Proof.
  assert (invite_user_to_organization (Demo.backend (Demo.rows [])) "o1"
            (Demo.invite "u2@x.com" ORGANIZATION_USER) Demo.owner_only Demo.idle
          = ({| errors := [];
                calls := [SelectProfileByEmail "u2@x.com";
                          SelectMembership (VStr "u2") "o1";
                          InsertMembership
                            (membership_row (VStr "u2") "o1" "organization_user"
                               "u1" (VStr "2024-01-01T00:00:00")
                               (VStr "2024-01-01T00:00:01"))];
                clock := 2 |},
             Returned (<["message" := VStr "User invited successfully"]> ∅)))
    as Hrun.
  { reflexivity. }
  split; [exact Hrun |].
  destruct (invite_inserts_only_new_members _ _ _ _ _ _ _
              (membership_row (VStr "u2") "o1" "organization_user" "u1"
                 (VStr "2024-01-01T00:00:00") (VStr "2024-01-01T00:00:01"))
              Hrun ltac:(right; right; left)) as [Hold | [Hmay _]].
  - left. exact Hold.
  - right. exact Hmay.
Defined.

(** A user who already has a membership row in the organization is not
    inserted again. *)
Example invite_existing_member :
  invite_user_to_organization (Demo.backend (Demo.rows [])) "o9"
    (Demo.invite "u2@x.com" ORGANIZATION_USER)
    (Sample.snapshot [Sample.admin_o9]) Demo.idle
  = (after_calls Demo.idle [SelectProfileByEmail "u2@x.com";
                            SelectMembership (VStr "u2") "o9"],
     Raised (HTTPException 400 "User already a member" None)).
Proof. reflexivity. Qed.

(** *** Creating an organization *)





Section CreateProofs.
Context (ext : Services) (backend : Backend).



(** X14: An organization is returned only after two insertions, in this
    order: the organization itself and a membership that makes the
    caller its owner, invited by themselves; nothing is logged. *)
Theorem create_organization_owner (request : OrganizationCreate)
    (self : UserContext) (t t' : Trace) (created : Organization) :
  create_organization ext backend request self t = (t', Returned created) ->
  exists (response : APIResponse) (data : Dict) (others : list Dict),
    execute backend (InsertOrganization (organization_row request))
    = inr response /\
    response_data response = data :: others /\
    Organization_new ext (VDict data) = inr created /\
    t' = {| errors := errors t;
            calls := calls t ++
              [InsertOrganization (organization_row request);
               InsertMembership
                 (membership_row (VStr (id self)) (org_id created)
                    "organization_owner" (id self)
                    (VStr (utcnow_isoformat backend (clock t)))
                    (VStr (utcnow_isoformat backend (S (clock t)))))];
            clock := S (S (clock t)) |}.
Proof.
  unfold create_organization, attempt. fold (organization_row request).
  match goal with
  | |- context [match ?body t with _ => _ end] =>
      destruct (body t) as [t1 [o | e1]] eqn:B
  end.
  2: { discriminate. }
  intros [= <- <-].
  apply hbind_inv_returned in B as (ta & response & B1 & B).
  apply send_inv in B1 as [-> Hresponse].
  destruct (response_data response) as [|data others] eqn:Hdata;
    [discriminate |].
  apply hbind_inv_returned in B as (tb & org & B2 & B).
  pose proof (silent_outcome _ _ _ _ B2) as ->.
  assert (Organization_new ext (VDict data) = inr org) as Hvalid.
  { destruct (Organization_new ext (VDict data)); [discriminate |].
    injection B2 as ->. reflexivity. }
  apply hbind_inv_returned in B as (tc & at1 & B3 & B).
  injection B3 as <- <-.
  apply hbind_inv_returned in B as (td & at2 & B4 & B).
  injection B4 as <- <-.
  apply hbind_inv_returned in B as (te & x & B5 & B).
  apply send_inv in B5 as [-> _]. injection B as <- <-.
  exists response, data, others. repeat split; try assumption.
  unfold after_calls. simpl. rewrite <- app_assoc. reflexivity.
Qed.

(** X15: The two insertions are not one step: when the membership cannot be
    inserted, the organization has been inserted all the same; the
    caller gets status 400 and no further call is sent to take the
    organization back. *)
Theorem create_organization_not_atomic (request : OrganizationCreate)
    (self : UserContext) (t : Trace) (response : APIResponse)
    (data : Dict) (others : list Dict) (created : Organization) (msg : string) :
  execute backend (InsertOrganization (organization_row request))
  = inr response ->
  response_data response = data :: others ->
  Organization_new ext (VDict data) = inr created ->
  execute backend
    (InsertMembership
       (membership_row (VStr (id self)) (org_id created) "organization_owner"
          (id self)
          (VStr (utcnow_isoformat backend (clock t)))
          (VStr (utcnow_isoformat backend (S (clock t))))))
  = inl msg ->
  create_organization ext backend request self t
  = ({| errors := errors t ++ ["Error creating organization: " +:+ msg];
        calls := calls t ++
          [InsertOrganization (organization_row request);
           InsertMembership
             (membership_row (VStr (id self)) (org_id created)
                "organization_owner" (id self)
                (VStr (utcnow_isoformat backend (clock t)))
                (VStr (utcnow_isoformat backend (S (clock t)))))];
        clock := S (S (clock t)) |},
     Raised (HTTPException 400 msg None)).
Proof.
  intros Hresponse Hdata Hvalid Hinsert.
  unfold create_organization, attempt. fold (organization_row request).
  set (t1 := after_calls t [InsertOrganization (organization_row request)]).
  assert (send backend (InsertOrganization (organization_row request)) t
          = (t1, Returned response)) as E1.
  { unfold send. rewrite Hresponse. reflexivity. }
  rewrite (hbind_returned _ _ _ _ _ E1), Hdata, Hvalid.
  rewrite (hbind_returned _ _ t1 t1 created eq_refl).
  set (t2 := {| errors := errors t1; calls := calls t1; clock := S (clock t1) |}).
  rewrite (hbind_returned (utcnow backend) _ t1 t2
             (VStr (utcnow_isoformat backend (clock t))) eq_refl).
  set (t3 := {| errors := errors t2; calls := calls t2; clock := S (clock t2) |}).
  rewrite (hbind_returned (utcnow backend) _ t2 t3
             (VStr (utcnow_isoformat backend (S (clock t)))) eq_refl).
  unfold send at 1. unfold mbind at 1, H_bind at 1.
  change (UserRole_value ORGANIZATION_OWNER) with "organization_owner".
  rewrite Hinsert.
  subst t3 t2 t1. unfold after_calls. simpl.
  rewrite <- !app_assoc. reflexivity.
Qed.

End CreateProofs.


Lemma create_organization_owner_witness :
  create_organization (Sample.services []) (Demo.backend (Demo.rows []))
    Demo.new_acme Demo.plain_user Demo.idle
  = ({| errors := [];
        calls := [InsertOrganization (organization_row Demo.new_acme);
                  InsertMembership
                    (membership_row (VStr "u1") "o5" "organization_owner" "u1"
                       (VStr "2024-01-01T00:00:00")
                       (VStr "2024-01-01T00:00:01"))];
        clock := 2 |},
     Returned Demo.acme) /\
  exists (response : APIResponse) (data : Dict) (others : list Dict),
    execute (Demo.backend (Demo.rows []))
            (InsertOrganization (organization_row Demo.new_acme))
    = inr response /\
    response_data response = data :: others /\
    Organization_new (Sample.services []) (VDict data) = inr Demo.acme.
Proof.
  assert (create_organization (Sample.services [])
            (Demo.backend (Demo.rows [])) Demo.new_acme Demo.plain_user
            Demo.idle
          = ({| errors := [];
                calls := [InsertOrganization (organization_row Demo.new_acme);
                          InsertMembership
                            (membership_row (VStr "u1") "o5" "organization_owner"
                               "u1" (VStr "2024-01-01T00:00:00")
                               (VStr "2024-01-01T00:00:01"))];
                clock := 2 |},
             Returned Demo.acme)) as Hrun.
  { reflexivity. }
  split; [exact Hrun |].
  destruct (create_organization_owner _ _ _ _ _ _ _ Hrun)
    as (response & data & others & H1 & H2 & H3 & _).
  exists response, data, others. auto.
Defined.

Lemma create_organization_not_atomic_witness :
  execute (Demo.backend (inl "duplicate key"))
          (InsertOrganization (organization_row Demo.new_acme))
  = Demo.rows [Demo.acme_row] /\
  Organization_new (Sample.services []) (VDict Demo.acme_row) = inr Demo.acme /\
  create_organization (Sample.services []) (Demo.backend (inl "duplicate key"))
    Demo.new_acme Demo.owner_only Demo.idle
  = ({| errors := ["Error creating organization: duplicate key"];
        calls := [InsertOrganization (organization_row Demo.new_acme);
                  InsertMembership
                    (membership_row (VStr "u1") "o5" "organization_owner" "u1"
                       (VStr "2024-01-01T00:00:00")
                       (VStr "2024-01-01T00:00:01"))];
        clock := 2 |},
     Raised (HTTPException 400 "duplicate key" None)).
Proof.
  split; [reflexivity |]. split; [reflexivity |].
  exact (create_organization_not_atomic (Sample.services [])
           (Demo.backend (inl "duplicate key")) Demo.new_acme Demo.owner_only
           Demo.idle
           {| response_data := [Demo.acme_row]; response_count := None |}
           Demo.acme_row [] Demo.acme "duplicate key"
           eq_refl eq_refl eq_refl eq_refl).
Defined.

(** *** Login and registration *)

Section AuthProofs.
Context (backend : Backend).

(** X16: The auth endpoints answer every failure with status 400.  So does a
    login with wrong credentials: the 401 "Invalid credentials" raised
    in the [try] block is caught by its own [except] clause and comes
    out as a 400 whose detail is the text of that error. *)
Theorem auth_failures_bad_request (login_request : LoginRequest)
    (register_request : RegisterRequest) (t : Trace) :
  (forall t' e,
     login backend login_request t = (t', Raised e) ->
     exists detail, e = HTTPException 400 detail None) /\
  (forall t' e,
     register backend register_request t = (t', Raised e) ->
     exists detail, e = HTTPException 400 detail None) /\
  (forall response,
     sign_in_with_password backend (login_credentials login_request)
     = inr response ->
     auth_user response = None ->
     login backend login_request t
     = (after_calls t [SignInWithPassword (login_credentials login_request)],
        Raised (HTTPException 400
                  (HTTPException_str backend 401 "Invalid credentials") None))).
Proof.
  split; [| split].
  - intros t' e. unfold login, attempt.
    match goal with
    | |- context [match ?body t with _ => _ end] =>
        destruct (body t) as [t1 [o | e1]]
    end; [discriminate |].
    intros [= _ <-]. eauto.
  - intros t' e. unfold register, attempt.
    match goal with
    | |- context [match ?body t with _ => _ end] =>
        destruct (body t) as [t1 [o | e1]]
    end; [discriminate |].
    intros [= _ <-]. eauto.
  - intros response Hsign Huser. unfold login, attempt.
    fold (login_credentials login_request).
    assert (auth_sign_in_with_password backend (login_credentials login_request) t
            = (after_calls t [SignInWithPassword (login_credentials login_request)],
               Returned response)) as E.
    { unfold auth_sign_in_with_password. rewrite Hsign. reflexivity. }
    rewrite (hbind_returned _ _ _ _ _ E), Huser. reflexivity.
Qed.

End AuthProofs.

Lemma auth_failures_bad_request_witness :
  sign_in_with_password (Demo.backend (Demo.rows []))
    (login_credentials {| login_email := "u1@x.com"; login_password := "guess" |})
  = inr {| auth_user := None; auth_session := None |} /\
  login (Demo.backend (Demo.rows []))
        {| login_email := "u1@x.com"; login_password := "guess" |} Demo.idle
  = (after_calls Demo.idle
       [SignInWithPassword
          (login_credentials
             {| login_email := "u1@x.com"; login_password := "guess" |})],
     Raised (HTTPException 400 "401: Invalid credentials" None)).
Proof.
  split; [reflexivity |].
  exact (proj2 (proj2 (auth_failures_bad_request (Demo.backend (Demo.rows []))
                         {| login_email := "u1@x.com"; login_password := "guess" |}
                         {| register_email := "u1@x.com";
                            register_password := "guess";
                            register_first_name := None;
                            register_last_name := None;
                            register_phone := None |} Demo.idle))
           {| auth_user := None; auth_session := None |} eq_refl eq_refl).
Defined.

(** With the right password the session's token comes back. *)
Example login_succeeds :
  login (Demo.backend (Demo.rows []))
        {| login_email := "u1@x.com"; login_password := "secret" |} Demo.idle
  = (after_calls Demo.idle
       [SignInWithPassword
          (login_credentials
             {| login_email := "u1@x.com"; login_password := "secret" |})],
     Returned {| login_access_token := "tok"; login_token_type := "bearer";
                 login_expires_in := 3600; login_user := Demo.ada |}).
Proof. reflexivity. Qed.

(** *** What a caller without a platform role gets to see *)



Section TenantProofs.
Context (ext : Services) (backend : Backend).


(** X18: The handlers read global data only for a caller with a platform
    role: when a call was sent, some membership of the caller carries
    such a role. *)
Theorem global_data_for_platform_roles_only (self : UserContext)
    (t t1 t2 : Trace) (stats : result DashboardStats)
    (orgs : result (list Organization)) :
  get_dashboard_stats backend self t = (t1, stats) ->
  get_organizations ext backend self t = (t2, orgs) ->
  t1 <> t \/ t2 <> t ->
  exists m, m ∈ memberships self /\
            (role m = SAAS_ACCOUNTANT \/ role m = SAAS_ADMIN \/
             role m = SAAS_SUPER_ADMIN).
Proof.
  intros Hstats Horgs Hsent.
  apply has_saas_role_true. unfold get_dashboard_stats in Hstats.
  unfold get_organizations in Horgs.
  destruct (has_saas_role self); [reflexivity |].
  injection Hstats as <- _. injection Horgs as <- _.
  destruct Hsent as [K | K]; destruct (K eq_refl).
Qed.

End TenantProofs.


Lemma global_data_for_platform_roles_only_witness :
  get_dashboard_stats (Demo.backend (Demo.rows []))
    (Sample.snapshot [Sample.admin_o9]) Demo.idle
  = (after_calls Demo.idle [CountOrganizations; CountUserProfiles],
     Returned {| total_organizations := 3; total_users := 12;
                 active_campaigns := 0; total_messages_sent := 0 |}) /\
  get_organizations (Sample.services []) (Demo.backend (Demo.rows []))
    (Sample.snapshot [Sample.admin_o9]) Demo.idle
  = (after_calls Demo.idle [SelectOrganizations], Returned [Demo.acme]) /\
  after_calls Demo.idle [CountOrganizations; CountUserProfiles] <> Demo.idle /\
  exists m, m ∈ memberships (Sample.snapshot [Sample.admin_o9]) /\
            (role m = SAAS_ACCOUNTANT \/ role m = SAAS_ADMIN \/
             role m = SAAS_SUPER_ADMIN).
Proof.
  assert (after_calls Demo.idle [CountOrganizations; CountUserProfiles]
          <> Demo.idle) as Hsent.
  { intros K. apply (f_equal calls) in K. discriminate K. }
  split; [reflexivity |]. split; [reflexivity |]. split; [exact Hsent |].
  exact (global_data_for_platform_roles_only (Sample.services [])
           (Demo.backend (Demo.rows [])) (Sample.snapshot [Sample.admin_o9])
           Demo.idle _ _ _ _ eq_refl eq_refl (or_introl Hsent)).
Defined.

(** ** More on the hierarchy *)

(** X19: A caller who has at least some role in an organization has at least
    every role below it. *)
Theorem minimum_role_monotone (self : UserContext) (org : string)
    (r lower : UserRole) :
  has_minimum_role_in_organization self org r = true ->
  (rank lower <= rank r)%nat ->
  has_minimum_role_in_organization self org lower = true.
Proof.
  unfold has_minimum_role_in_organization.
  destruct (get_membership_for_organization self org) as [m |];
    [| discriminate].
  simpl. rewrite !role_level_ge. lia.
Qed.

Lemma minimum_role_monotone_witness :
  has_minimum_role_in_organization Demo.owner_only "o1" ORGANIZATION_OWNER = true /\
  (rank ORGANIZATION_ADMIN <= rank ORGANIZATION_OWNER)%nat /\
  has_minimum_role_in_organization Demo.owner_only "o1" ORGANIZATION_ADMIN = true.
Proof.
  assert (rank ORGANIZATION_ADMIN <= rank ORGANIZATION_OWNER)%nat as Hle.
  { vm_compute. lia. }
  split; [reflexivity |]. split; [exact Hle |].
  exact (minimum_role_monotone Demo.owner_only "o1" ORGANIZATION_OWNER
           ORGANIZATION_ADMIN eq_refl Hle).
Defined.

(** X20: Asking for the lowest role is asking for membership: the check for
    organization_user succeeds exactly when the snapshot holds an active
    membership for the organization. *)
Theorem minimum_role_lowest_is_membership (self : UserContext) (org : string) :
  has_minimum_role_in_organization self org ORGANIZATION_USER = true <->
  exists m, m ∈ memberships self /\ organization_id m = org /\
            is_active m = true.
Proof.
  unfold has_minimum_role_in_organization. split.
  - destruct (get_membership_for_organization self org) as [m |] eqn:E;
      [| discriminate].
    intros _. apply get_membership_Some in E as [Hin [Ho Ha]]. eauto.
  - intros (m & Hin & Ho & Ha).
    destruct (get_membership_for_organization self org) as [x |] eqn:E.
    + simpl. apply role_level_ge. vm_compute. lia.
    + unfold get_membership_for_organization in E.
      apply first_match_None in E. rewrite Forall_forall in E.
      destruct (E m Hin). split; assumption.
Qed.

Lemma minimum_role_lowest_is_membership_witness :
  (exists m, m ∈ memberships Sample.owner_and_retired /\
             organization_id m = "o1" /\ is_active m = true) /\
  has_minimum_role_in_organization Sample.owner_and_retired "o1"
    ORGANIZATION_USER = true.
Proof.
  assert (exists m, m ∈ memberships Sample.owner_and_retired /\
                    organization_id m = "o1" /\ is_active m = true) as Hm.
  { exists Sample.owner_o1. split; [left | split; reflexivity]. }
  split; [exact Hm |].
  exact (proj2 (minimum_role_lowest_is_membership Sample.owner_and_retired "o1")
           Hm).
Defined.

(** X21: A caller who passes a check for a platform role in any organization
    holds a platform role: [has_saas_role] is true as well. *)
Theorem minimum_platform_role_implies_saas_role (self : UserContext)
    (org : string) (r : UserRole) :
  r = SAAS_ACCOUNTANT \/ r = SAAS_ADMIN \/ r = SAAS_SUPER_ADMIN ->
  has_minimum_role_in_organization self org r = true ->
  has_saas_role self = true.
Proof.
  intros Hr. unfold has_minimum_role_in_organization.
  destruct (get_membership_for_organization self org) as [m |] eqn:E;
    [| discriminate].
  simpl. intros Hlevel. apply get_membership_Some in E as [Hin _].
  apply has_saas_role_true. exists m. split; [exact Hin |].
  apply role_level_ge in Hlevel. unfold platform_role.
  destruct Hr as [-> | [-> | ->]]; destruct (role m); vm_compute in Hlevel;
    auto; lia.
Qed.

Lemma minimum_platform_role_implies_saas_role_witness :
  has_minimum_role_in_organization (Sample.snapshot [Sample.admin_o9]) "o9"
    SAAS_ACCOUNTANT = true /\
  has_saas_role (Sample.snapshot [Sample.admin_o9]) = true.
Proof.
  split; [reflexivity |].
  exact (minimum_platform_role_implies_saas_role
           (Sample.snapshot [Sample.admin_o9]) "o9" SAAS_ACCOUNTANT
           (or_introl eq_refl) eq_refl).
Defined.
